(** * vscode-liquidjava: the client extension's lifecycle and diagnostics routing

    A shallow embedding of [client/src/extension.ts] and
    [client/src/webview/provider.ts].

    The module-level variables of [extension.ts] become the fields of a
    record [State].  Every [async] function is cut at its [await]s: the code
    between two suspension points is a state transformer, and a suspended
    function is a [Task] waiting in the state until the host settles the
    promise it awaits.  Callbacks registered with the editor, the language
    client or the child process are inputs of a step function.  Calls made
    to collaborators (logger, status bar, webview, process, socket, language
    client) are recorded, in order, in a trace. *)

From Stdlib Require Import String Ascii ZArith List Bool Lia DecimalString.
Import ListNotations.

Local Open Scope string_scope.
Local Open Scope Z_scope.

(** ** Values shared with the host *)

(** A thrown or rejected value, as [e.toString()] / string concatenation
    renders it. *)
Definition Exn := string.

(** [Number.prototype.toString] on an integer. *)
Definition string_of_Z (z : Z) : string := NilZero.string_of_int (Z.to_int z).

(** [String.prototype.trim], on the ASCII white space and line terminators. *)
Definition isWhiteSpace (c : ascii) : bool :=
  match nat_of_ascii c with
  | 9%nat | 10%nat | 11%nat | 12%nat | 13%nat | 32%nat => true
  | _ => false
  end.

Fixpoint trimStart (s : string) : string :=
  match s with
  | String c rest => if isWhiteSpace c then trimStart rest else s
  | EmptyString => EmptyString
  end.

Fixpoint trimEnd (s : string) : string :=
  match s with
  | EmptyString => EmptyString
  | String c rest =>
      match trimEnd rest with
      | EmptyString => if isWhiteSpace c then EmptyString else String c EmptyString
      | rest' => String c rest'
      end
  end.

Definition trim (s : string) : string := trimEnd (trimStart s).

(** A JavaScript value whose shape the client code never inspects. *)
Unset Elimination Schemes.
Inductive JSValue :=
| JNull
| JBool (b : bool)
| JNumber (z : Z)
| JString (s : string)
| JArray (items : list JSValue)
| JObject (fields : list (string * JSValue)).
Set Elimination Schemes.

(** The constants imported from [./constants]; the module is not part of the
    sources at hand, so its values are parameters of the development. *)
Record Constants := {
  SERVER_JAR_FILENAME : string;
  DEBUG_MODE : bool;
  DEBUG_PORT : Z;
  EXAMPLE_DERIVATION_NODE : JSValue;
  EXAMPLE_EXPECTED : JSValue;
  EXAMPLE_TRANSLATION_TABLE : JSValue
}.

(** What the machine answers to the synchronous queries of [activate] and
    [runLanguageServer]. *)
Record Host := {
  (** [findJavaExecutable("java")] *)
  findJavaExecutable : string -> option string;
  (** [context.extensionPath] *)
  extensionPath : string;
  (** [path.resolve] *)
  path_resolve : list string -> string;
  (** [vscode.workspace.workspaceFolders], by [uri.fsPath] *)
  workspaceFolders : option (list string)
}.

(** ** vscode and node data *)

Module DiagnosticSeverity.
Inductive t := Error | Warning | Information | Hint.

Definition eqb (a b : t) : bool :=
  match a, b with
  | Error, Error | Warning, Warning | Information, Information | Hint, Hint => true
  | _, _ => false
  end.
End DiagnosticSeverity.

Record Position := { line : Z; character : Z }.
Record Range := { range_start : Position; range_end : Position }.
Record Uri := { fsPath : string }.

(** [vscode.Diagnostic] seen as [LJDiagnostic]: [data] is the structured
    payload, of which only [errorKind] is read; it is absent on a diagnostic
    that carries none. *)
Module Diagnostic.
Record t := {
  message : string;
  range : Range;
  severity : DiagnosticSeverity.t;
  source : option string;
  data : option string
}.
End Diagnostic.

Module RefinementError.
Record t := {
  message : string;
  range : Range;
  severity : DiagnosticSeverity.t;
  file : string;
  kind : string;
  expected : JSValue;
  found : JSValue;
  translationTable : JSValue
}.
End RefinementError.

(** [child_process.ChildProcess], by what it was spawned with. *)
Record ChildProcess := {
  spawnfile : string;
  spawnargs : list string;
  spawncwd : string
}.

(** [net.Socket]; [destroyError] is what [destroy()] throws on this handle,
    if it throws. *)
Record Socket := {
  remotePort : Z;
  destroyError : option Exn
}.

(** [LanguageClient]; [serverPort] is the [port] its [serverOptions] closure
    captured.  [extension.ts] keeps no lifecycle state of its own: whether
    the extension is stopped is read off the three references [client],
    [socket] and [serverProcess]. *)
Record LanguageClient := { serverPort : Z }.

(** [State] of vscode-languageclient. *)
Module ClientState.
Inductive t := Stopped | Running | Starting.
End ClientState.

Record StatusBarItem := {
  text : string;
  color : string;
  tooltip : string;
  command : string
}.

(** The argument of [updateStatusBar]. *)
Inductive StatusBarState := loading | stopped | passed | failed.

(** [LiquidJavaWebviewProvider]: only whether [view] has been resolved. *)
Record LiquidJavaWebviewProvider := { view : bool }.

(** Messages posted to the webview: [{ type: "refinement-error", error }]. *)
Inductive OutMessage :=
| RefinementErrorMessage (error : option RefinementError.t).

(** Messages received from the webview. *)
Record InMessage := {
  msg_type : string;
  filePath : string;
  msg_line : Z;
  msg_character : Z
}.

(** ** Trace of calls to collaborators *)

Inductive Origin := Client | Server.

Inductive Event :=
| LogInfo (o : Origin) (msg : string)
| LogError (o : Origin) (msg : string)
| ShowWarningMessage (msg : string)
| ShowErrorMessage (msg : string)
| UpdateStatusBar (st : StatusBarState)
| SendMessage (m : OutMessage)
| PostMessage (m : OutMessage)
| OpenFile (path : string) (l c : Z)
| ApplyItalicOverlay
| IsJarPresent
| GetAvailablePort
| Spawn (p : ChildProcess)
| ConnectToPort (port : Z)
| ServerOptionsResolve (sk : Socket)
| ServerOptionsReject (e : Exn)
| ClientStart
| ClientStop
| SocketDestroy (sk : Socket)
| Kill (p : ChildProcess)
| Next (uri : Uri) (diagnostics : list Diagnostic.t)
| Uncaught (e : Exn).

(** ** Suspended functions *)

(** Who awaits the promise of a [stopExtension] call, and so what runs when
    it returns. *)
Inductive Caller :=
| Detached
| FromDeactivate
| FromRunClient
| FromServerOptions (error : Exn).

(** A function suspended at an [await], named by the function and by what it
    awaits, with the local variables it needs when it runs on.
    [Activate_runLanguageServer port] is [activate] waiting for the promise
    of [runLanguageServer], which that function has already fulfilled with
    [port].  [StopExtension_clientStop called] records whether there was a
    client, so that [client.stop()] was called, and
    [StopExtension_killProcess target] the argument given to [killProcess]. *)
Inductive Task :=
| Activate_applyItalicOverlay
| Activate_isJarPresent
| RunLanguageServer_getAvailablePort (javaExecutablePath : string)
| Activate_runLanguageServer (port : Z)
| RunClient_start
| ServerOptions_connectToPort (port : Z)
| StopExtension_clientStop (called : bool) (k : Caller)
| StopExtension_killProcess (target : option ChildProcess) (k : Caller).

Inductive Value :=
| VUndefined
| VBool (b : bool)
| VNumber (z : Z)
| VSocket (sk : Socket).

Inductive Outcome :=
| Fulfilled (v : Value)
| Rejected (e : Exn).

(** ** The extension's state *)

Record State := {
  (** module-level variables *)
  serverProcess : option ChildProcess;
  client : option LanguageClient;
  socket : option Socket;
  statusBarItem : StatusBarItem;
  errorDiagnostic : option RefinementError.t;
  webviewProvider : LiquidJavaWebviewProvider;
  (** objects kept alive by their registered callbacks *)
  clientInstance : option LanguageClient;
  processListening : bool;
  processClosed : bool;
  saveListener : bool;
  (** suspended functions and the trace so far *)
  tasks : list Task;
  trace : list Event
}.

Definition set_serverProcess (v : option ChildProcess) (s : State) : State :=
  {| serverProcess := v; client := client s; socket := socket s;
     statusBarItem := statusBarItem s; errorDiagnostic := errorDiagnostic s;
     webviewProvider := webviewProvider s; clientInstance := clientInstance s;
     processListening := processListening s; processClosed := processClosed s;
     saveListener := saveListener s; tasks := tasks s; trace := trace s |}.

Definition set_client (v : option LanguageClient) (s : State) : State :=
  {| serverProcess := serverProcess s; client := v; socket := socket s;
     statusBarItem := statusBarItem s; errorDiagnostic := errorDiagnostic s;
     webviewProvider := webviewProvider s; clientInstance := clientInstance s;
     processListening := processListening s; processClosed := processClosed s;
     saveListener := saveListener s; tasks := tasks s; trace := trace s |}.

Definition set_socket (v : option Socket) (s : State) : State :=
  {| serverProcess := serverProcess s; client := client s; socket := v;
     statusBarItem := statusBarItem s; errorDiagnostic := errorDiagnostic s;
     webviewProvider := webviewProvider s; clientInstance := clientInstance s;
     processListening := processListening s; processClosed := processClosed s;
     saveListener := saveListener s; tasks := tasks s; trace := trace s |}.

Definition set_statusBarItem (v : StatusBarItem) (s : State) : State :=
  {| serverProcess := serverProcess s; client := client s; socket := socket s;
     statusBarItem := v; errorDiagnostic := errorDiagnostic s;
     webviewProvider := webviewProvider s; clientInstance := clientInstance s;
     processListening := processListening s; processClosed := processClosed s;
     saveListener := saveListener s; tasks := tasks s; trace := trace s |}.

Definition set_errorDiagnostic (v : option RefinementError.t) (s : State) : State :=
  {| serverProcess := serverProcess s; client := client s; socket := socket s;
     statusBarItem := statusBarItem s; errorDiagnostic := v;
     webviewProvider := webviewProvider s; clientInstance := clientInstance s;
     processListening := processListening s; processClosed := processClosed s;
     saveListener := saveListener s; tasks := tasks s; trace := trace s |}.

Definition set_webviewProvider (v : LiquidJavaWebviewProvider) (s : State) : State :=
  {| serverProcess := serverProcess s; client := client s; socket := socket s;
     statusBarItem := statusBarItem s; errorDiagnostic := errorDiagnostic s;
     webviewProvider := v; clientInstance := clientInstance s;
     processListening := processListening s; processClosed := processClosed s;
     saveListener := saveListener s; tasks := tasks s; trace := trace s |}.

Definition set_clientInstance (v : option LanguageClient) (s : State) : State :=
  {| serverProcess := serverProcess s; client := client s; socket := socket s;
     statusBarItem := statusBarItem s; errorDiagnostic := errorDiagnostic s;
     webviewProvider := webviewProvider s; clientInstance := v;
     processListening := processListening s; processClosed := processClosed s;
     saveListener := saveListener s; tasks := tasks s; trace := trace s |}.

Definition set_processListening (v : bool) (s : State) : State :=
  {| serverProcess := serverProcess s; client := client s; socket := socket s;
     statusBarItem := statusBarItem s; errorDiagnostic := errorDiagnostic s;
     webviewProvider := webviewProvider s; clientInstance := clientInstance s;
     processListening := v; processClosed := processClosed s;
     saveListener := saveListener s; tasks := tasks s; trace := trace s |}.

Definition set_processClosed (v : bool) (s : State) : State :=
  {| serverProcess := serverProcess s; client := client s; socket := socket s;
     statusBarItem := statusBarItem s; errorDiagnostic := errorDiagnostic s;
     webviewProvider := webviewProvider s; clientInstance := clientInstance s;
     processListening := processListening s; processClosed := v;
     saveListener := saveListener s; tasks := tasks s; trace := trace s |}.

Definition set_saveListener (v : bool) (s : State) : State :=
  {| serverProcess := serverProcess s; client := client s; socket := socket s;
     statusBarItem := statusBarItem s; errorDiagnostic := errorDiagnostic s;
     webviewProvider := webviewProvider s; clientInstance := clientInstance s;
     processListening := processListening s; processClosed := processClosed s;
     saveListener := v; tasks := tasks s; trace := trace s |}.

Definition set_tasks (v : list Task) (s : State) : State :=
  {| serverProcess := serverProcess s; client := client s; socket := socket s;
     statusBarItem := statusBarItem s; errorDiagnostic := errorDiagnostic s;
     webviewProvider := webviewProvider s; clientInstance := clientInstance s;
     processListening := processListening s; processClosed := processClosed s;
     saveListener := saveListener s; tasks := v; trace := trace s |}.

Definition set_trace (v : list Event) (s : State) : State :=
  {| serverProcess := serverProcess s; client := client s; socket := socket s;
     statusBarItem := statusBarItem s; errorDiagnostic := errorDiagnostic s;
     webviewProvider := webviewProvider s; clientInstance := clientInstance s;
     processListening := processListening s; processClosed := processClosed s;
     saveListener := saveListener s; tasks := tasks s; trace := v |}.

Notation "s |> f" := (f s) (at level 45, left associativity, only parsing).

(** A call to a collaborator, appended to the trace. *)
Definition emit (e : Event) (s : State) : State := set_trace (trace s ++ [e]) s.

(** The running function stops at an [await]. *)
Definition suspend (t : Task) (s : State) : State := set_tasks (tasks s ++ [t]) s.

Definition logInfo (o : Origin) (msg : string) : State -> State := emit (LogInfo o msg).
Definition logError (o : Origin) (msg : string) : State -> State := emit (LogError o msg).

(** JavaScript truthiness of an optional reference. *)
Definition defined {A} (x : option A) : bool :=
  match x with Some _ => true | None => false end.

(** ** [provider.ts] *)

(** [sendMessage]: [this.view?.webview.postMessage(message)]. *)
Definition sendMessage (message : OutMessage) (s : State) : State :=
  let s := emit (SendMessage message) s in
  if view (webviewProvider s) then emit (PostMessage message) s else s.

(** [resolveWebviewView]: keeps the view. *)
Definition resolveWebviewView (s : State) : State :=
  set_webviewProvider {| view := true |} s.

(** ** [extension.ts] *)

Definition icons (state : StatusBarState) : string :=
  match state with
  | loading => "$(sync~spin)"
  | stopped => "$(circle-slash)"
  | passed => "$(check)"
  | failed => "$(x)"
  end.

Definition updateStatusBar (state : StatusBarState) (s : State) : State :=
  let color :=
    match state with
    | stopped => "errorForeground"
    | _ => "statusBar.foreground"
    end in
  s |> emit (UpdateStatusBar state)
    |> set_statusBarItem
         {| text := icons state ++ " LiquidJava";
            color := color;
            tooltip := tooltip (statusBarItem s);
            command := command (statusBarItem s) |}.

(** The status the bar shows. *)
Definition shows (state : StatusBarState) (s : State) : Prop :=
  text (statusBarItem s) = icons state ++ " LiquidJava".

Definition initStatusBar (s : State) : State :=
  s |> set_statusBarItem
         {| text := ""; color := "";
            tooltip := "LiquidJava Commands";
            command := "liquidjava.showCommands" |}
    |> updateStatusBar loading.

Definition initWebview (s : State) : State :=
  set_webviewProvider {| view := false |} s.

(** The module before [activate] runs: every variable undefined. *)
Definition unloaded : State :=
  {| serverProcess := None; client := None; socket := None;
     statusBarItem := {| text := ""; color := ""; tooltip := ""; command := "" |};
     errorDiagnostic := None;
     webviewProvider := {| view := false |};
     clientInstance := None;
     processListening := false; processClosed := false;
     saveListener := false; tasks := []; trace := [] |}.

(** What a handler or a function segment leaves behind: it returned, or it
    threw. *)
Inductive Completion :=
| Returned (s : State)
| Thrown (e : Exn) (s : State).

(** The predicate of [diagnostics.find] in [handleDiagnostics]. *)
Definition isLiquidJavaError (d : Diagnostic.t) : bool :=
  DiagnosticSeverity.eqb (Diagnostic.severity d) DiagnosticSeverity.Error
  && match Diagnostic.source d with
     | Some src => (src =? "liquidjava")%string
     | None => false
     end.

(** Modelled from the spec: [killProcess] of [./utils], which is not among
    the sources.  It sends a termination signal to the process and is a
    no-op on a null handle; the promise it returns is settled by the host. *)
Definition killProcess (proc : option ChildProcess) (s : State) : State :=
  match proc with
  | Some p => emit (Kill p) s
  | None => s
  end.

(** [stopExtension] returned to an awaiting caller: the rest of that caller.
    [runClient] goes on to register its save listener, the [serverOptions]
    promise rejects with the connection error. *)
Definition resume_caller (k : Caller) (s : State) : State :=
  match k with
  | Detached | FromDeactivate => s
  | FromRunClient => set_saveListener true s
  | FromServerOptions error => emit (ServerOptionsReject error) s
  end.

(** The guard of [stopExtension]: [!client && !serverProcess && !socket]. *)
Definition nothingToStop (s : State) : bool :=
  negb (defined (client s)) && negb (defined (serverProcess s))
  && negb (defined (socket s)).

(** [stopExtension], up to [await client?.stop()]. *)
Definition stopExtension (reason : string) (k : Caller) (s : State) : State :=
  if nothingToStop s then
    s |> logInfo Client "Extension already stopped" |> resume_caller k
  else
    let s := s |> logInfo Client ("Stopping LiquidJava extension: " ++ reason)
               |> updateStatusBar stopped in
    match client s with
    | Some _ => s |> emit ClientStop |> suspend (StopExtension_clientStop true k)
    | None => s |> suspend (StopExtension_clientStop false k)
    end.

(** [stopExtension], from the settlement of [client?.stop()] to
    [await killProcess(serverProcess)]. *)
Definition stopExtension_closeSocket (k : Caller) (o : Outcome) (s : State) : State :=
  let s := match o with
           | Rejected e => logError Client ("Error stopping client: " ++ e) s
           | Fulfilled _ => s
           end in
  let s := set_client None s in
  let s := match socket s with
           | Some sk =>
               let s := emit (SocketDestroy sk) s in
               match destroyError sk with
               | Some e => logError Client ("Error closing socket: " ++ e) s
               | None => s
               end
           | None => s
           end in
  let s := set_socket None s in
  s |> killProcess (serverProcess s)
    |> suspend (StopExtension_killProcess (serverProcess s) k).

(** [stopExtension], after [await killProcess(serverProcess)]: a rejection
    leaves the function at the [await]. *)
Definition stopExtension_clearProcess (k : Caller) (o : Outcome) (s : State) : State :=
  match o with
  | Fulfilled _ => s |> set_serverProcess None |> resume_caller k
  | Rejected e => emit (Uncaught e) s
  end.

Section Extension.

Variable K : Constants.
Variable H : Host.

(** [handleDiagnostics]. *)
Definition handleDiagnostics (uri : Uri) (diagnostics : list Diagnostic.t)
    (s : State) : Completion :=
  match find isLiquidJavaError diagnostics with
  | None =>
      Returned (s |> sendMessage (RefinementErrorMessage None)
                  |> updateStatusBar passed
                  |> set_errorDiagnostic None)
  | Some diagnostic =>
      match Diagnostic.data diagnostic with
      | None =>
          Thrown "TypeError: Cannot read properties of undefined (reading 'errorKind')" s
      | Some errorKind =>
          let error :=
            {| RefinementError.message := Diagnostic.message diagnostic;
               RefinementError.range := Diagnostic.range diagnostic;
               RefinementError.severity := Diagnostic.severity diagnostic;
               RefinementError.file := fsPath uri;
               RefinementError.kind := errorKind;
               RefinementError.expected := EXAMPLE_EXPECTED K;
               RefinementError.found := EXAMPLE_DERIVATION_NODE K;
               RefinementError.translationTable := EXAMPLE_TRANSLATION_TABLE K |} in
          Returned (s |> sendMessage (RefinementErrorMessage (Some error))
                      |> updateStatusBar failed
                      |> set_errorDiagnostic (Some error))
      end
  end.

(** The [handleDiagnostics] middleware of the client: [next] runs only when
    [handleDiagnostics] returned. *)
Definition middleware (uri : Uri) (diagnostics : list Diagnostic.t) (s : State) : State :=
  match handleDiagnostics uri diagnostics s with
  | Returned s' => emit (Next uri diagnostics) s'
  | Thrown e s' => emit (Uncaught e) s'
  end.

(** [activate], up to [await applyItalicOverlay()].  [initLogging],
    [initCommandPalette] and [initCodeLens] only create the logger and
    register commands and a code lens provider; the logger is there from
    here on. *)
Definition activate : State :=
  unloaded |> initStatusBar
           |> initWebview
           |> logInfo Client "Activating LiquidJava extension..."
           |> emit ApplyItalicOverlay
           |> suspend Activate_applyItalicOverlay.

(** [runLanguageServer], up to [await getAvailablePort()], or to its return
    in debug mode. *)
Definition runLanguageServer (javaExecutablePath : string) (s : State) : State :=
  if DEBUG_MODE K then
    s |> logInfo Client ("DEBUG MODE: Using fixed port " ++ string_of_Z (DEBUG_PORT K))
      |> suspend (Activate_runLanguageServer (DEBUG_PORT K))
  else
    s |> emit GetAvailablePort
      |> suspend (RunLanguageServer_getAvailablePort javaExecutablePath).

(** [runLanguageServer], from the port to its return. *)
Definition runLanguageServer_spawn (javaExecutablePath : string) (port : Z)
    (s : State) : State :=
  let s := logInfo Client ("Running language server on port " ++ string_of_Z port) s in
  let jarPath := path_resolve H [extensionPath H; "server"; SERVER_JAR_FILENAME K] in
  let args := ["-jar"; jarPath; string_of_Z port] in
  match workspaceFolders H with
  | Some (root :: _) =>
      let p := {| spawnfile := javaExecutablePath; spawnargs := args; spawncwd := root |} in
      s |> logInfo Client "Creating language server process..."
        |> emit (Spawn p)
        |> set_serverProcess (Some p)
        |> set_processListening true
        |> suspend (Activate_runLanguageServer port)
  | _ =>
      emit (Uncaught "TypeError: Cannot read properties of undefined (reading 'uri')") s
  end.

(** [activate], from the answer of [isJarPresent()] on. *)
Definition activate_prerequisites (jarIsPresent : bool) (s : State) : State :=
  if negb jarIsPresent then
    s |> emit (ShowWarningMessage "LiquidJava API Jar Not Found in Workspace")
      |> logError Client "LiquidJava API jar not found in workspace - Not activating extension"
      |> updateStatusBar stopped
  else
    let s := logInfo Client "Found LiquidJava API in the workspace - Loading extension..." s in
    match findJavaExecutable H "java" with
    | None | Some EmptyString =>
        s |> emit (ShowErrorMessage "LiquidJava - Java Runtime Not Found in JAVA_HOME or PATH")
          |> logError Client "Java Runtime not found in JAVA_HOME or PATH - Not activating extension"
          |> updateStatusBar stopped
    | Some javaExecutablePath =>
        s |> logInfo Client ("Using Java at: " ++ javaExecutablePath)
          |> logInfo Client "Starting LiquidJava language server..."
          |> runLanguageServer javaExecutablePath
    end.

(** [runClient], up to [await client.start()]. *)
Definition runClient (port : Z) (s : State) : State :=
  let c := {| serverPort := port |} in
  s |> set_client (Some c)
    |> set_clientInstance (Some c)
    |> emit ClientStart
    |> suspend RunClient_start.

(** [runClient], after [await client.start()]. *)
Definition runClient_started (o : Outcome) (s : State) : State :=
  match o with
  | Fulfilled _ =>
      s |> logInfo Client "Extension is ready" |> set_saveListener true
  | Rejected e =>
      s |> emit (ShowErrorMessage ("LiquidJava failed to initialize: " ++ e))
        |> logError Client ("Failed to initialize: " ++ e)
        |> stopExtension "Failed to initialize" FromRunClient
  end.

(** The [serverOptions] closure, up to [await connectToPort(port)]. *)
Definition serverOptions (port : Z) (s : State) : State :=
  s |> emit (ConnectToPort port) |> suspend (ServerOptions_connectToPort port).

(** [deactivate]. *)
Definition deactivate (s : State) : State :=
  s |> logInfo Client "Deactivating LiquidJava extension..."
    |> stopExtension "Extension was deactivated" FromDeactivate.

(** The listener of [client.onDidChangeState]. *)
Definition onDidChangeState (newState : ClientState.t) (s : State) : State :=
  match newState with
  | ClientState.Stopped => stopExtension "Extension stopped" Detached s
  | _ => s
  end.

(** The listener of [workspace.onDidSaveTextDocument]. *)
Definition onDidSaveTextDocument (s : State) : State :=
  if defined (client s) then updateStatusBar loading s else s.

(** The listeners of the webview's messages: the one [initWebview] registers,
    then the provider's own handling of [openFile]. *)
Definition onDidReceiveMessage (m : InMessage) (s : State) : State :=
  let s := if (msg_type m =? "ready")%string && defined (errorDiagnostic s)
           then sendMessage (RefinementErrorMessage (errorDiagnostic s)) s
           else s in
  if (msg_type m =? "openFile")%string
  then emit (OpenFile (filePath m) (msg_line m) (msg_character m)) s
  else s.

(** The listeners of [serverProcess]. *)
Definition onStdout (data : string) : State -> State := logInfo Server (trim data).
Definition onStderr (data : string) : State -> State := logError Server (trim data).
Definition onProcessError (err : Exn) : State -> State :=
  logError Server ("Failed to start: " ++ err).

Definition onProcessClose (code : option Z) (s : State) : State :=
  let shown := match code with Some c => string_of_Z c | None => "null" end in
  let s := logInfo Server ("Process exited with code " ++ shown) s in
  match client s with
  | Some _ => emit ClientStop s
  | None => s
  end.

(** ** Scheduling *)

(** A suspended function runs on when the promise it awaits settles.  [None]:
    the awaited promise cannot settle that way. *)
Definition resume (t : Task) (o : Outcome) (s : State) : option State :=
  match t, o with
  | Activate_applyItalicOverlay, Fulfilled VUndefined =>
      Some (s |> emit IsJarPresent |> suspend Activate_isJarPresent)
  | Activate_isJarPresent, Fulfilled (VBool jarIsPresent) =>
      Some (activate_prerequisites jarIsPresent s)
  | RunLanguageServer_getAvailablePort java, Fulfilled (VNumber port) =>
      Some (runLanguageServer_spawn java port s)
  | Activate_runLanguageServer port, Fulfilled VUndefined =>
      Some (s |> logInfo Client "Starting LiquidJava client..." |> runClient port)
  | RunClient_start, (Fulfilled VUndefined | Rejected _) =>
      Some (runClient_started o s)
  | ServerOptions_connectToPort _, Fulfilled (VSocket sk) =>
      Some (s |> set_socket (Some sk) |> emit (ServerOptionsResolve sk))
  | ServerOptions_connectToPort _, Rejected error =>
      Some (stopExtension "Failed to connect to server" (FromServerOptions error) s)
  | StopExtension_clientStop _ k, Fulfilled VUndefined =>
      Some (stopExtension_closeSocket k o s)
  | StopExtension_clientStop true k, Rejected _ =>
      Some (stopExtension_closeSocket k o s)
  | StopExtension_killProcess _ k, Fulfilled VUndefined =>
      Some (stopExtension_clearProcess k o s)
  | StopExtension_killProcess (Some _) k, Rejected _ =>
      Some (stopExtension_clearProcess k o s)
  | (Activate_applyItalicOverlay | Activate_isJarPresent
     | RunLanguageServer_getAvailablePort _), Rejected e =>
      Some (emit (Uncaught e) s)
  | _, _ => None
  end.

Fixpoint remove_nth {A} (n : nat) (l : list A) : list A :=
  match n, l with
  | O, _ :: rest => rest
  | S n', x :: rest => x :: remove_nth n' rest
  | _, [] => []
  end.

(** What the host can do once [activate] was called: settle the promise
    the [n]-th suspended function awaits, call the exported [deactivate],
    dispose the subscriptions of the context, and run the callbacks the
    extension registered with the language client ([serverOptions],
    [onDidChangeState], the diagnostics middleware), the workspace, the
    webview and the engine process. *)
Inductive Input :=
| Settle (n : nat) (o : Outcome)
| Deactivate
| Dispose
| ServerOptionsCall
| DidChangeState (newState : ClientState.t)
| PublishDiagnostics (uri : Uri) (diagnostics : list Diagnostic.t)
| DidSaveTextDocument
| ResolveWebviewView
| WebviewMessage (m : InMessage)
| ProcessStdout (data : string)
| ProcessStderr (data : string)
| ProcessError (err : Exn)
| ProcessClose (code : option Z).

(** One turn of the event loop.  [None]: the callback is not registered, or
    there is no such suspended function. *)
Definition step (s : State) (i : Input) : option State :=
  match i with
  | Settle n o =>
      match nth_error (tasks s) n with
      | Some t => resume t o (set_tasks (remove_nth n (tasks s)) s)
      | None => None
      end
  | Deactivate => Some (deactivate s)
  | Dispose =>
      if defined (clientInstance s)
      then Some (stopExtension "Extension was disposed" Detached s) else None
  | ServerOptionsCall =>
      match clientInstance s with
      | Some c => Some (serverOptions (serverPort c) s)
      | None => None
      end
  | DidChangeState newState =>
      if defined (clientInstance s) then Some (onDidChangeState newState s) else None
  | PublishDiagnostics uri diagnostics =>
      if defined (clientInstance s) then Some (middleware uri diagnostics s) else None
  | DidSaveTextDocument =>
      if saveListener s then Some (onDidSaveTextDocument s) else None
  | ResolveWebviewView => Some (resolveWebviewView s)
  | WebviewMessage m =>
      if view (webviewProvider s) then Some (onDidReceiveMessage m s) else None
  | ProcessStdout data =>
      if processListening s then Some (onStdout data s) else None
  | ProcessStderr data =>
      if processListening s then Some (onStderr data s) else None
  | ProcessError err =>
      if processListening s then Some (onProcessError err s) else None
  | ProcessClose code =>
      if processListening s && negb (processClosed s)
      then Some (s |> set_processClosed true |> onProcessClose code) else None
  end.

Fixpoint run (s : State) (inputs : list Input) : option State :=
  match inputs with
  | [] => Some s
  | i :: rest =>
      match step s i with
      | Some s' => run s' rest
      | None => None
      end
  end.

(** The states the extension can be in after [activate] was called. *)
Definition reachable (s : State) : Prop :=
  exists inputs, run activate inputs = Some s.

(** A call of [stopExtension] that runs to its end before any other callback
    or suspended function runs: when the call suspends, its own two awaits
    are the next promises to settle, [client?.stop()] with [stopResult] and
    [killProcess(serverProcess)] with [killResult]. *)
Definition stopExtension_call (reason : string) (k : Caller)
    (stopResult killResult : Outcome) (s : State) : option State :=
  let n := length (tasks s) in
  if nothingToStop s then Some (stopExtension reason k s)
  else
    match step (stopExtension reason k s) (Settle n stopResult) with
    | Some s' => step s' (Settle n killResult)
    | None => None
    end.

(** Calls of [stopExtension], one after the other. *)
Fixpoint stopExtension_calls (calls : list (string * Caller * Outcome * Outcome))
    (s : State) : option State :=
  match calls with
  | [] => Some s
  | (reason, k, stopResult, killResult) :: rest =>
      match stopExtension_call reason k stopResult killResult s with
      | Some s' => stopExtension_calls rest s'
      | None => None
      end
  end.

End Extension.

Arguments remove_nth {A} n l.

(** ** Sample data

    A concrete configuration and a few inputs, for the scenarios below. *)

Definition sample_constants : Constants :=
  {| SERVER_JAR_FILENAME := "language-server-liquidjava.jar";
     DEBUG_MODE := false;
     DEBUG_PORT := 50000;
     EXAMPLE_DERIVATION_NODE := JObject [("value", JString "x > 0")];
     EXAMPLE_EXPECTED := JString "x > 0";
     EXAMPLE_TRANSLATION_TABLE := JObject [] |}.

Definition debug_constants : Constants :=
  {| SERVER_JAR_FILENAME := "language-server-liquidjava.jar";
     DEBUG_MODE := true;
     DEBUG_PORT := 50000;
     EXAMPLE_DERIVATION_NODE := JObject [("value", JString "x > 0")];
     EXAMPLE_EXPECTED := JString "x > 0";
     EXAMPLE_TRANSLATION_TABLE := JObject [] |}.

Definition sample_host : Host :=
  {| findJavaExecutable := fun _ => Some "/usr/bin/java";
     extensionPath := "/ext";
     path_resolve := String.concat "/";
     workspaceFolders := Some ["/ws"] |}.

Definition host_without_java : Host :=
  {| findJavaExecutable := fun _ => None;
     extensionPath := "/ext";
     path_resolve := String.concat "/";
     workspaceFolders := Some ["/ws"] |}.

Definition sample_range (l : Z) : Range :=
  {| range_start := {| line := l; character := 4 |};
     range_end := {| line := l; character := 9 |} |}.

Definition sample_diagnostic (msg : string) (l : Z) (sev : DiagnosticSeverity.t)
    (src : string) : Diagnostic.t :=
  {| Diagnostic.message := msg;
     Diagnostic.range := sample_range l;
     Diagnostic.severity := sev;
     Diagnostic.source := Some src;
     Diagnostic.data := Some "refinement-error" |}.

Definition sample_uri : Uri := {| fsPath := "/ws/src/Main.java" |}.

Definition sample_socket : Socket := {| remotePort := 54321; destroyError := None |}.

Definition sample_process : ChildProcess :=
  {| spawnfile := "/usr/bin/java";
     spawnargs := ["-jar"; "/ext/server/language-server-liquidjava.jar"; "54321"];
     spawncwd := "/ws" |}.

Definition resolved : Outcome := Fulfilled VUndefined.

(** Activation with every prerequisite present, up to "Extension is ready":
    the overlay is applied, the jar is found, port 54321 is free, the engine
    is spawned, the client is created, connects and starts. *)
Definition startup : list Input :=
  [ Settle 0 resolved;
    Settle 0 (Fulfilled (VBool true));
    Settle 0 (Fulfilled (VNumber 54321));
    Settle 0 resolved;
    ServerOptionsCall;
    Settle 1 (Fulfilled (VSocket sample_socket));
    Settle 0 resolved ].

(** Activation up to the spawn of the engine. *)
Definition startup_spawned : list Input :=
  [ Settle 0 resolved;
    Settle 0 (Fulfilled (VBool true));
    Settle 0 (Fulfilled (VNumber 54321)) ].

(** How often events satisfying [f] occur. *)
Definition count (f : Event -> bool) (l : list Event) : nat :=
  length (filter f l).

Definition isClientStop (e : Event) : bool :=
  match e with ClientStop => true | _ => false end.
Definition isSocketDestroy (e : Event) : bool :=
  match e with SocketDestroy _ => true | _ => false end.
Definition isKill (e : Event) : bool :=
  match e with Kill _ => true | _ => false end.
Definition isUpdateStatusBar (e : Event) : bool :=
  match e with UpdateStatusBar _ => true | _ => false end.
Definition isNotification (e : Event) : bool :=
  match e with ShowWarningMessage _ | ShowErrorMessage _ => true | _ => false end.
Definition isStoppingLog (e : Event) : bool :=
  match e with
  | LogInfo Client msg => prefix "Stopping LiquidJava extension: " msg
  | _ => false
  end.
Definition isAlreadyStoppedLog (e : Event) : bool :=
  match e with
  | LogInfo Client msg => (msg =? "Extension already stopped")%string
  | _ => false
  end.

(** Three diagnostics of one document: an [Error] of another tool first, then
    two [Error]s of the engine. *)
Definition sample_diagnostics : list Diagnostic.t :=
  [ sample_diagnostic "cannot find symbol" 3 DiagnosticSeverity.Error "java";
    sample_diagnostic "refinement x > 0 violated" 7 DiagnosticSeverity.Error "liquidjava";
    sample_diagnostic "refinement y < 10 violated" 12 DiagnosticSeverity.Error "liquidjava" ].

(** Diagnostics without an [Error] of the engine: a warning of the engine and
    an [Error] of another tool. *)
Definition sample_clean_diagnostics : list Diagnostic.t :=
  [ sample_diagnostic "unused refinement alias" 2 DiagnosticSeverity.Warning "liquidjava";
    sample_diagnostic "cannot find symbol" 3 DiagnosticSeverity.Error "java" ].

(** The events of [sendMessage]. *)
Definition sent (m : OutMessage) (s : State) : list Event :=
  SendMessage m :: if view (webviewProvider s) then [PostMessage m] else [].

(** ** Vocabulary of the statements *)

(** The extension once "Extension is ready" was logged. *)
Definition sample_running : State :=
  match run sample_constants sample_host activate startup with
  | Some s => s
  | None => activate
  end.

(** How the promise of [client?.stop()] can settle in state [s]: it rejects
    only if there is a client to stop. *)
Definition admissible (s : State) (stopResult : Outcome) : Prop :=
  match stopResult with
  | Fulfilled VUndefined => True
  | Rejected _ => client s <> None
  | _ => False
  end.

(** The events of a call of [stopExtension] that finds something to stop and
    runs to its end. *)
Definition teardown_events (reason : string) (stopResult : Outcome) (s : State)
    : list Event :=
  [LogInfo Client ("Stopping LiquidJava extension: " ++ reason); UpdateStatusBar stopped]
  ++ (if defined (client s) then [ClientStop] else [])
  ++ match stopResult with
     | Rejected e => [LogError Client ("Error stopping client: " ++ e)]
     | Fulfilled _ => []
     end
  ++ match socket s with
     | Some sk =>
         SocketDestroy sk
         :: match destroyError sk with
            | Some e => [LogError Client ("Error closing socket: " ++ e)]
            | None => []
            end
     | None => []
     end
  ++ match serverProcess s with
     | Some p => [Kill p]
     | None => []
     end.

(** The events of the caller that awaited [stopExtension]. *)
Definition caller_events (k : Caller) : list Event :=
  match k with
  | FromServerOptions error => [ServerOptionsReject error]
  | _ => []
  end.

(** The counters of the stop statements, on one trace. *)
Definition tally (l : list Event) : list nat :=
  [ count isClientStop l; count isSocketDestroy l; count isKill l;
    count isUpdateStatusBar l; count isStoppingLog l; count isAlreadyStoppedLog l ].

Definition isUncaught (e : Event) : bool :=
  match e with Uncaught _ => true | _ => false end.

(** The running extension, [stopExtension] called by the disposal of the
    subscriptions and suspended at [await killProcess(serverProcess)]. *)
Definition sample_killing : State :=
  match run sample_constants sample_host sample_running [Dispose; Settle 0 resolved] with
  | Some s => s
  | None => activate
  end.

(** The running extension whose engine process has just exited with code 1. *)
Definition sample_exited : State :=
  match step sample_constants sample_host sample_running (ProcessClose (Some 1)) with
  | Some s => s
  | None => activate
  end.

(** The extension once the engine was spawned, before the client exists. *)
Definition sample_spawned : State :=
  match run sample_constants sample_host activate startup_spawned with
  | Some s => s
  | None => activate
  end.

(** In debug mode: no port is asked for, nothing is spawned, and every
    connection goes to [DEBUG_PORT]. *)
Definition debug_event (K : Constants) (e : Event) : Prop :=
  match e with
  | GetAvailablePort | Spawn _ => False
  | ConnectToPort port => port = DEBUG_PORT K
  | _ => True
  end.

(** In debug mode: no function waits for a free port, and the ports held by
    suspended functions are [DEBUG_PORT]. *)
Definition debug_task (K : Constants) (t : Task) : Prop :=
  match t with
  | RunLanguageServer_getAvailablePort _ => False
  | Activate_runLanguageServer port | ServerOptions_connectToPort port =>
      port = DEBUG_PORT K
  | _ => True
  end.

Definition debug_invariant (K : Constants) (s : State) : Prop :=
  serverProcess s = None /\
  processListening s = false /\
  Forall (debug_event K) (trace s) /\
  Forall (debug_task K) (tasks s) /\
  (forall c, client s = Some c -> serverPort c = DEBUG_PORT K) /\
  (forall c, clientInstance s = Some c -> serverPort c = DEBUG_PORT K).

(** Activation in debug mode, up to the connection of the client. *)
Definition startup_debug : list Input :=
  [ Settle 0 resolved;
    Settle 0 (Fulfilled (VBool true));
    Settle 0 resolved;
    ServerOptionsCall ].

(** The answer of [isJarPresent()] arrives, and says the jar is there. *)
Definition jarReportedPresent (i : Input) : bool :=
  match i with
  | Settle _ (Fulfilled (VBool true)) => true
  | _ => false
  end.

(** The answer of [isJarPresent()] arrives. *)
Definition jarAnswered (i : Input) : bool :=
  match i with
  | Settle _ (Fulfilled (VBool _)) => true
  | _ => false
  end.

(** [!javaExecutablePath] in [activate]. *)
Definition javaMissing (H : Host) : bool :=
  match findJavaExecutable H "java" with
  | None | Some EmptyString => true
  | Some _ => false
  end.

(** The functions that can be suspended before the prerequisites are known. *)
Definition early_task (t : Task) : Prop :=
  match t with
  | Activate_applyItalicOverlay | Activate_isJarPresent => True
  | _ => False
  end.

(** The events of an activation that stops at a missing prerequisite. *)
Definition early_event (e : Event) : Prop :=
  match e with
  | GetAvailablePort | Spawn _ | ClientStart | ConnectToPort _ => False
  | ShowWarningMessage msg => msg = "LiquidJava API Jar Not Found in Workspace"
  | ShowErrorMessage msg =>
      msg = "LiquidJava - Java Runtime Not Found in JAVA_HOME or PATH"
  | _ => True
  end.

Definition prerequisite_invariant (s : State) : Prop :=
  serverProcess s = None /\ client s = None /\ socket s = None /\
  clientInstance s = None /\ processListening s = false /\ saveListener s = false /\
  Forall early_task (tasks s) /\
  Forall early_event (trace s) /\
  (length (tasks s) + count isNotification (trace s) <= 1)%nat /\
  (count isNotification (trace s) = 1%nat -> shows stopped s).

(** Activation in a workspace without the jar. *)
Definition startup_without_jar : list Input :=
  [ Settle 0 resolved; Settle 0 (Fulfilled (VBool false)); Deactivate ].

(** Activation in a workspace with the jar. *)
Definition startup_with_jar : list Input :=
  [ Settle 0 resolved; Settle 0 (Fulfilled (VBool true)); Deactivate ].

(** A refinement error with the example values of [./constants]. *)
Definition has_example_fields (K : Constants) (e : RefinementError.t) : Prop :=
  RefinementError.expected e = EXAMPLE_EXPECTED K /\
  RefinementError.found e = EXAMPLE_DERIVATION_NODE K /\
  RefinementError.translationTable e = EXAMPLE_TRANSLATION_TABLE K.

(** An event that gives the webview no refinement error, or one with the
    example values. *)
Definition example_event (K : Constants) (ev : Event) : Prop :=
  match ev with
  | SendMessage (RefinementErrorMessage (Some e))
  | PostMessage (RefinementErrorMessage (Some e)) => has_example_fields K e
  | _ => True
  end.

Definition example_invariant (K : Constants) (s : State) : Prop :=
  (forall e, errorDiagnostic s = Some e -> has_example_fields K e) /\
  Forall (example_event K) (trace s).

(** ** The rest of [extension.ts]: code lenses and commands *)

(** [vscode.CodeLens], with the command it carries. *)
Record CodeLens := {
  lens_range : Range;
  lens_title : string;
  lens_command : string;
  lens_tooltip : string
}.

(** The filter of [provideCodeLenses]:
    [d.source === "liquidjava" && d.severity === vscode.DiagnosticSeverity.Error]. *)
Definition isLensDiagnostic (d : Diagnostic.t) : bool :=
  match Diagnostic.source d with
  | Some src => (src =? "liquidjava")%string
  | None => false
  end
  && DiagnosticSeverity.eqb (Diagnostic.severity d) DiagnosticSeverity.Error.

(** [provideCodeLenses], on what [vscode.languages.getDiagnostics(document.uri)]
    returns. *)
Definition provideCodeLenses (diagnostics : list Diagnostic.t) : list CodeLens :=
  map (fun d =>
         let l := line (range_start (Diagnostic.range d)) in
         {| lens_range := {| range_start := {| line := l; character := 0 |};
                             range_end := {| line := l; character := 0 |} |};
            lens_title := "View Details";
            lens_command := "liquidjava.showView";
            lens_tooltip := "Open LiquidJava View" |})
      (filter isLensDiagnostic diagnostics).








(** ** More vocabulary *)

Definition isSpawn (e : Event) : bool :=
  match e with Spawn _ => true | _ => false end.
Definition isGetAvailablePort (e : Event) : bool :=
  match e with GetAvailablePort => true | _ => false end.
Definition isClientStart (e : Event) : bool :=
  match e with ClientStart => true | _ => false end.
Definition isServerOptionsResolve (e : Event) : bool :=
  match e with ServerOptionsResolve _ => true | _ => false end.

(** The argument of the last call of [updateStatusBar] in a trace. *)
Fixpoint lastStatus (l : list Event) : option StatusBarState :=
  match l with
  | [] => None
  | e :: rest =>
      match lastStatus rest with
      | Some st => Some st
      | None => match e with UpdateStatusBar st => Some st | _ => None end
      end
  end.

(** The refinement error [handleDiagnostics] builds from a diagnostic. *)
Definition refinementErrorOf (K : Constants) (uri : Uri) (d : Diagnostic.t)
    (errorKind : string) : RefinementError.t :=
  {| RefinementError.message := Diagnostic.message d;
     RefinementError.range := Diagnostic.range d;
     RefinementError.severity := Diagnostic.severity d;
     RefinementError.file := fsPath uri;
     RefinementError.kind := errorKind;
     RefinementError.expected := EXAMPLE_EXPECTED K;
     RefinementError.found := EXAMPLE_DERIVATION_NODE K;
     RefinementError.translationTable := EXAMPLE_TRANSLATION_TABLE K |}.

(** A diagnostic of the engine without the structured payload. *)
Definition sample_bare_diagnostic : Diagnostic.t :=
  {| Diagnostic.message := "refinement x > 0 violated";
     Diagnostic.range := sample_range 7;
     Diagnostic.severity := DiagnosticSeverity.Error;
     Diagnostic.source := Some "liquidjava";
     Diagnostic.data := None |}.

(** The webview reports that it is ready. *)
Definition ready_message : InMessage :=
  {| msg_type := "ready"; filePath := ""; msg_line := 0; msg_character := 0 |}.

(** The status bar item after [updateStatusBar(st)], as [initStatusBar]
    created it. *)
Definition statusBarFor (st : StatusBarState) : StatusBarItem :=
  {| text := icons st ++ " LiquidJava";
     color := match st with
              | stopped => "errorForeground"
              | _ => "statusBar.foreground"
              end;
     tooltip := "LiquidJava Commands";
     command := "liquidjava.showCommands" |}.

(** The status bar item is the one the last call of [updateStatusBar] made. *)
Definition statusBar_invariant (s : State) : Prop :=
  exists st, lastStatus (trace s) = Some st /\ statusBarItem s = statusBarFor st.


(** In a trace, every [b] comes after some [a]. *)
Definition precedes (a b : Event) (l : list Event) : Prop :=
  forall l1 l2, l = (l1 ++ b :: l2)%list -> In a l1.

(** What the references hold was created, and what was torn down had been
    created before. *)
Definition resources_invariant (s : State) : Prop :=
  (forall p, serverProcess s = Some p -> In (Spawn p) (trace s)) /\
  (forall sk, socket s = Some sk -> In (ServerOptionsResolve sk) (trace s)) /\
  (forall c, client s = Some c -> In ClientStart (trace s)) /\
  (forall p, precedes (Spawn p) (Kill p) (trace s)) /\
  (forall sk, precedes (ServerOptionsResolve sk) (SocketDestroy sk) (trace s)) /\
  precedes ClientStart ClientStop (trace s).

(** The socket the extension holds and the sockets it destroyed are no more
    than the connections that were established. *)
Definition socket_invariant (s : State) : Prop :=
  (count isSocketDestroy (trace s) + (if defined (socket s) then 1 else 0)
   <= count isServerOptionsResolve (trace s))%nat.

(** How many suspended functions satisfy [f]. *)
Definition pending (f : Task -> bool) (ts : list Task) : nat :=
  length (filter f ts).

Definition isBeforePort (t : Task) : bool :=
  match t with
  | Activate_applyItalicOverlay | Activate_isJarPresent => true
  | _ => false
  end.
Definition isAwaitingPort (t : Task) : bool :=
  match t with RunLanguageServer_getAvailablePort _ => true | _ => false end.
Definition isAwaitingServer (t : Task) : bool :=
  match t with Activate_runLanguageServer _ => true | _ => false end.

(** [activate] is in one place at a time, and what it has done it does not
    do again. *)
Definition activation_invariant (s : State) : Prop :=
  (pending isBeforePort (tasks s) + count isGetAvailablePort (trace s) <= 1)%nat /\
  (pending isBeforePort (tasks s) + pending isAwaitingPort (tasks s)
   + count isSpawn (trace s) <= 1)%nat /\
  (pending isBeforePort (tasks s) + pending isAwaitingPort (tasks s)
   + pending isAwaitingServer (tasks s) + count isClientStart (trace s) <= 1)%nat.

(** Two stops of the running extension that overlap. *)
Definition overlapping_stops : list Input :=
  [ Dispose; Deactivate; Settle 0 resolved; Settle 0 resolved;
    Settle 0 resolved; Settle 0 resolved ].

(** The running extension after a stop that ran to its end. *)
Definition sample_stopped : State :=
  match run sample_constants sample_host sample_running
          [Dispose; Settle 0 resolved; Settle 0 resolved] with
  | Some s => s
  | None => activate
  end.

(** The running extension after two overlapping stops. *)
Definition sample_stopped_twice : State :=
  match run sample_constants sample_host sample_running overlapping_stops with
  | Some s => s
  | None => activate
  end.

(** How [runLanguageServer] spawns the engine for [port]: the Java
    executable that was found, the arguments [-jar], the jar of the
    extension and the port, in the first workspace folder. *)
Definition spawned_as (K : Constants) (H : Host) (p : ChildProcess) (port : Z) : Prop :=
  findJavaExecutable H "java" = Some (spawnfile p) /\
  spawnargs p
  = ["-jar"; path_resolve H [extensionPath H; "server"; SERVER_JAR_FILENAME K];
     string_of_Z port] /\
  exists rest, workspaceFolders H = Some (spawncwd p :: rest).

(** An engine was spawned for [port]. *)
Definition engine_on (K : Constants) (H : Host) (tr : list Event) (port : Z) : Prop :=
  exists p, In (Spawn p) tr /\ spawned_as K H p port.

Definition contract_task (K : Constants) (H : Host) (tr : list Event) (t : Task)
    : Prop :=
  match t with
  | RunLanguageServer_getAvailablePort java => findJavaExecutable H "java" = Some java
  | Activate_runLanguageServer port | ServerOptions_connectToPort port =>
      engine_on K H tr port
  | _ => True
  end.

Definition contract_invariant (K : Constants) (H : Host) (s : State) : Prop :=
  (forall p, In (Spawn p) (trace s) -> exists port, spawned_as K H p port) /\
  (forall port, In (ConnectToPort port) (trace s) -> engine_on K H (trace s) port) /\
  (forall c, clientInstance s = Some c -> engine_on K H (trace s) (serverPort c)) /\
  Forall (contract_task K H (trace s)) (tasks s).

(** [vscode.workspace.workspaceFolders[0]] is undefined. *)
Definition noWorkspaceFolder (H : Host) : bool :=
  match workspaceFolders H with
  | None | Some [] => true
  | Some (_ :: _) => false
  end.

(** The answer of [getAvailablePort()] arrives. *)
Definition portAnswered (i : Input) : bool :=
  match i with
  | Settle _ (Fulfilled (VNumber _)) => true
  | _ => false
  end.

(** What [runLanguageServer] throws when it reads the first workspace
    folder and there is none. *)
Definition noWorkspaceError : Event :=
  Uncaught "TypeError: Cannot read properties of undefined (reading 'uri')".

Definition unspawned_task (t : Task) : Prop :=
  match t with
  | Activate_applyItalicOverlay | Activate_isJarPresent
  | RunLanguageServer_getAvailablePort _ => True
  | _ => False
  end.

Definition unspawned_event (e : Event) : Prop :=
  match e with
  | Spawn _ | ClientStart | ConnectToPort _ | Kill _ | ClientStop => False
  | _ => True
  end.

(** Without a workspace folder, outside debug mode: nothing is ever created,
    and the activation is waiting, or has shown a message, or has ended in
    an exception. *)
Definition unspawned_invariant (s : State) : Prop :=
  serverProcess s = None /\ client s = None /\ socket s = None /\
  clientInstance s = None /\ processListening s = false /\ saveListener s = false /\
  Forall unspawned_task (tasks s) /\
  Forall unspawned_event (trace s) /\
  (length (tasks s) + count isNotification (trace s)
   + count isUncaught (trace s) = 1)%nat /\
  (count isNotification (trace s) = 0%nat -> shows loading s).

(** A machine with Java and no folder open. *)
Definition host_without_workspace : Host :=
  {| findJavaExecutable := fun _ => Some "/usr/bin/java";
     extensionPath := "/ext";
     path_resolve := String.concat "/";
     workspaceFolders := None |}.

(** Activation with every prerequisite present, up to "Extension is ready",
    when [getAvailablePort()] answers [port] and the connection delivers
    [sk]. *)
Definition startup_on (port : Z) (sk : Socket) : list Input :=
  [ Settle 0 resolved;
    Settle 0 (Fulfilled (VBool true));
    Settle 0 (Fulfilled (VNumber port));
    Settle 0 resolved;
    ServerOptionsCall;
    Settle 1 (Fulfilled (VSocket sk));
    Settle 0 resolved ].
(** * Properties *)

Lemma DiagnosticSeverity_eqb_eq a b :
  DiagnosticSeverity.eqb a b = true <-> a = b.
Proof. destruct a, b; simpl; split; congruence. Qed.

(** ** Diagnostics routing *)

Lemma isLiquidJavaError_spec (d : Diagnostic.t) :
  isLiquidJavaError d = true <->
  Diagnostic.severity d = DiagnosticSeverity.Error /\
  Diagnostic.source d = Some "liquidjava".
Proof.
  unfold isLiquidJavaError. rewrite andb_true_iff, DiagnosticSeverity_eqb_eq.
  destruct (Diagnostic.source d) as [src|].
  - rewrite String.eqb_eq. split; intros [Hs Hsrc]; split; congruence.
  - split; intros [_ Hsrc]; discriminate.
Qed.

(** [Array.prototype.find]: the element found is the first, in the order of
    the array, that satisfies the predicate. *)
Lemma find_first {A} (f : A -> bool) (l : list A) (x : A) :
  find f l = Some x <->
  exists before after,
    l = (before ++ x :: after)%list /\ f x = true /\
    forall y, In y before -> f y = false.
Proof.
  split.
  - induction l as [|a l IH]; simpl; [discriminate|].
    destruct (f a) eqn:Hfa.
    + intros [= ->]. exists [], l. repeat split; auto. intros y [].
    + intros Hfind. destruct (IH Hfind) as (before & after & -> & Hx & Hbefore).
      exists (a :: before), after. repeat split; auto.
      intros y [<-|Hy]; auto.
  - intros (before & after & -> & Hx & Hbefore).
    induction before as [|a before IH]; simpl.
    + now rewrite Hx.
    + rewrite (Hbefore a (or_introl eq_refl)). apply IH.
      intros y Hy. apply Hbefore. now right.
Qed.

Lemma find_none_iff {A} (f : A -> bool) (l : list A) :
  find f l = None <-> forall y, In y l -> f y = false.
Proof.
  split.
  - intros Hnone y Hy. exact (find_none f l Hnone y Hy).
  - induction l as [|a l IH]; simpl; auto.
    intros Hall. rewrite (Hall a (or_introl eq_refl)). apply IH.
    intros y Hy. apply Hall. now right.
Qed.

Lemma sendMessage_trace m s : trace (sendMessage m s) = (trace s ++ sent m s)%list.
Proof.
  unfold sendMessage, sent. simpl. destruct (view (webviewProvider s)); simpl; auto.
  now rewrite <- app_assoc.
Qed.

Lemma in_sent m s e : In e (sent m s) -> e = SendMessage m \/ e = PostMessage m.
Proof.
  unfold sent. intros [<-|He]; auto.
  destruct (view (webviewProvider s)); [|destruct He].
  destruct He as [<-|[]]; auto.
Qed.

Lemma handleDiagnostics_found K uri diagnostics s d errorKind :
  find isLiquidJavaError diagnostics = Some d ->
  Diagnostic.data d = Some errorKind ->
  let error :=
    {| RefinementError.message := Diagnostic.message d;
       RefinementError.range := Diagnostic.range d;
       RefinementError.severity := Diagnostic.severity d;
       RefinementError.file := fsPath uri;
       RefinementError.kind := errorKind;
       RefinementError.expected := EXAMPLE_EXPECTED K;
       RefinementError.found := EXAMPLE_DERIVATION_NODE K;
       RefinementError.translationTable := EXAMPLE_TRANSLATION_TABLE K |} in
  exists s',
    handleDiagnostics K uri diagnostics s = Returned s' /\
    errorDiagnostic s' = Some error /\
    shows failed s' /\
    trace s' = (trace s ++ sent (RefinementErrorMessage (Some error)) s
                        ++ [UpdateStatusBar failed])%list.
Proof.
  intros Hfind Hdata error. unfold handleDiagnostics. rewrite Hfind, Hdata.
  eexists. split; [reflexivity|]. repeat split.
  simpl. rewrite sendMessage_trace. fold error. now rewrite <- app_assoc.
Qed.

Lemma handleDiagnostics_not_found K uri diagnostics s :
  find isLiquidJavaError diagnostics = None ->
  exists s',
    handleDiagnostics K uri diagnostics s = Returned s' /\
    errorDiagnostic s' = None /\
    shows passed s' /\
    trace s' = (trace s ++ sent (RefinementErrorMessage None) s
                        ++ [UpdateStatusBar passed])%list.
Proof.
  intros Hfind. unfold handleDiagnostics. rewrite Hfind.
  eexists. split; [reflexivity|]. repeat split.
  simpl. rewrite sendMessage_trace. now rewrite <- app_assoc.
Qed.

(** C7.  The diagnostic [handleDiagnostics] makes the active refinement error
    is the first one of the routed array, in the array's order, whose
    severity is [Error] and whose source is ["liquidjava"]: whenever the call
    leaves an [errorDiagnostic], it was built from a diagnostic with that
    severity and source that no such diagnostic precedes; and conversely the
    first such diagnostic of an array is the one selected, whatever follows
    it and whatever diagnostics of other sources or lower severities stand
    before it. *)
Theorem handleDiagnostics_selects_first_engine_error :
  forall (K : Constants) (uri : Uri) (diagnostics : list Diagnostic.t) (s : State),
    (forall s' e,
        handleDiagnostics K uri diagnostics s = Returned s' ->
        errorDiagnostic s' = Some e ->
        exists before d after,
          diagnostics = (before ++ d :: after)%list /\
          Diagnostic.severity d = DiagnosticSeverity.Error /\
          Diagnostic.source d = Some "liquidjava" /\
          (forall x, In x before ->
             ~ (Diagnostic.severity x = DiagnosticSeverity.Error /\
                Diagnostic.source x = Some "liquidjava")) /\
          RefinementError.message e = Diagnostic.message d /\
          RefinementError.range e = Diagnostic.range d /\
          RefinementError.severity e = Diagnostic.severity d /\
          Diagnostic.data d = Some (RefinementError.kind e)) /\
    (forall before d after errorKind,
        diagnostics = (before ++ d :: after)%list ->
        Diagnostic.severity d = DiagnosticSeverity.Error ->
        Diagnostic.source d = Some "liquidjava" ->
        (forall x, In x before ->
           ~ (Diagnostic.severity x = DiagnosticSeverity.Error /\
              Diagnostic.source x = Some "liquidjava")) ->
        Diagnostic.data d = Some errorKind ->
        exists s' e,
          handleDiagnostics K uri diagnostics s = Returned s' /\
          errorDiagnostic s' = Some e /\
          In (SendMessage (RefinementErrorMessage (Some e))) (trace s') /\
          RefinementError.message e = Diagnostic.message d /\
          RefinementError.range e = Diagnostic.range d /\
          RefinementError.severity e = Diagnostic.severity d /\
          RefinementError.kind e = errorKind).
Proof.
  intros K uri diagnostics s. split.
  - intros s' e Hret Herr. unfold handleDiagnostics in Hret.
    destruct (find isLiquidJavaError diagnostics) as [d|] eqn:Hfind.
    + destruct (Diagnostic.data d) as [errorKind|] eqn:Hdata; [|discriminate].
      injection Hret as <-. simpl in Herr. injection Herr as <-. simpl.
      apply find_first in Hfind as (before & after & -> & Hd & Hbefore).
      apply isLiquidJavaError_spec in Hd as [Hsev Hsrc].
      exists before, d, after. repeat split; auto.
      intros x Hx Hboth. apply isLiquidJavaError_spec in Hboth.
      rewrite (Hbefore x Hx) in Hboth. discriminate.
    + injection Hret as <-. simpl in Herr. discriminate.
  - intros before d after errorKind -> Hsev Hsrc Hbefore Hdata.
    assert (Hfind : find isLiquidJavaError (before ++ d :: after) = Some d).
    { apply find_first. exists before, after. repeat split.
      - apply isLiquidJavaError_spec. auto.
      - intros y Hy. destruct (isLiquidJavaError y) eqn:Hy'; auto.
        apply isLiquidJavaError_spec in Hy'. destruct (Hbefore y Hy Hy'). }
    destruct (handleDiagnostics_found K uri _ s _ _ Hfind Hdata)
      as (s' & Hret & Herr & _ & Htrace).
    eexists s', _. split; [exact Hret|]. split; [exact Herr|].
    repeat split. rewrite Htrace. apply in_or_app. right.
    apply in_or_app. left. left. reflexivity.
Qed.

Lemma handleDiagnostics_selects_first_engine_error_witness :
  exists s' e,
    handleDiagnostics sample_constants sample_uri sample_diagnostics activate
      = Returned s' /\
    errorDiagnostic s' = Some e /\
    RefinementError.message e = "refinement x > 0 violated".
Proof.
  destruct (proj2 (handleDiagnostics_selects_first_engine_error
                     sample_constants sample_uri sample_diagnostics activate)
              [sample_diagnostic "cannot find symbol" 3 DiagnosticSeverity.Error "java"]
              (sample_diagnostic "refinement x > 0 violated" 7
                 DiagnosticSeverity.Error "liquidjava")
              [sample_diagnostic "refinement y < 10 violated" 12
                 DiagnosticSeverity.Error "liquidjava"]
              "refinement-error" eq_refl eq_refl eq_refl)
    as (s' & e & Hret & Herr & _ & Hmsg & _).
  - intros x [<-|[]] [_ Hsrc]. discriminate Hsrc.
  - reflexivity.
  - exists s', e. repeat split; assumption.
Defined.

(** C8.  Routing a set that holds no diagnostic of severity [Error] and source
    ["liquidjava"] -- the empty set in particular -- clears [errorDiagnostic],
    sends the message [{ type: "refinement-error", error: null }] to the
    webview provider (which posts it when its view is resolved), and sets the
    status bar to passed; nothing else is traced. *)
Theorem handleDiagnostics_without_engine_error :
  forall (K : Constants) (uri : Uri) (diagnostics : list Diagnostic.t) (s : State),
    (forall d, In d diagnostics ->
       ~ (Diagnostic.severity d = DiagnosticSeverity.Error /\
          Diagnostic.source d = Some "liquidjava")) ->
    exists s',
      handleDiagnostics K uri diagnostics s = Returned s' /\
      errorDiagnostic s' = None /\
      shows passed s' /\
      trace s' = (trace s
                  ++ SendMessage (RefinementErrorMessage None)
                     :: (if view (webviewProvider s)
                         then [PostMessage (RefinementErrorMessage None)] else [])
                  ++ [UpdateStatusBar passed])%list.
Proof.
  intros K uri diagnostics s Hnone.
  apply handleDiagnostics_not_found. apply find_none_iff.
  intros y Hy. destruct (isLiquidJavaError y) eqn:Hy'; auto.
  apply isLiquidJavaError_spec in Hy'. destruct (Hnone y Hy Hy').
Qed.

Lemma handleDiagnostics_without_engine_error_witness :
  (exists s',
      handleDiagnostics sample_constants sample_uri [] activate = Returned s' /\
      errorDiagnostic s' = None /\ shows passed s') /\
  (exists s',
      handleDiagnostics sample_constants sample_uri sample_clean_diagnostics activate
        = Returned s' /\
      errorDiagnostic s' = None /\ shows passed s').
Proof.
  split.
  - destruct (handleDiagnostics_without_engine_error sample_constants sample_uri
                [] activate) as (s' & Hret & Herr & Hshows & _).
    + intros d [].
    + exists s'. repeat split; assumption.
  - destruct (handleDiagnostics_without_engine_error sample_constants sample_uri
                sample_clean_diagnostics activate) as (s' & Hret & Herr & Hshows & _).
    + intros d [<-|[<-|[]]] [Hsev Hsrc]; discriminate.
    + exists s'. repeat split; assumption.
Defined.

(** C10.  Every [RefinementError] that [handleDiagnostics] builds -- the one it
    sends to the webview provider and keeps in [errorDiagnostic] -- has
    [EXAMPLE_EXPECTED], [EXAMPLE_DERIVATION_NODE] and [EXAMPLE_TRANSLATION_TABLE]
    in its [expected], [found] and [translationTable] fields, whatever the
    routed diagnostics are; its [message], [range], [severity] and [kind] are
    those of one of the routed diagnostics and its [file] is the path of the
    routed document. *)
Theorem refinementError_example_fields :
  forall (K : Constants) (uri : Uri) (diagnostics : list Diagnostic.t)
         (s s' : State),
    handleDiagnostics K uri diagnostics s = Returned s' ->
    exists new,
      trace s' = (trace s ++ new)%list /\
      forall e,
        In (SendMessage (RefinementErrorMessage (Some e))) new \/
        In (PostMessage (RefinementErrorMessage (Some e))) new \/
        errorDiagnostic s' = Some e ->
        RefinementError.expected e = EXAMPLE_EXPECTED K /\
        RefinementError.found e = EXAMPLE_DERIVATION_NODE K /\
        RefinementError.translationTable e = EXAMPLE_TRANSLATION_TABLE K /\
        RefinementError.file e = fsPath uri /\
        exists d,
          In d diagnostics /\
          RefinementError.message e = Diagnostic.message d /\
          RefinementError.range e = Diagnostic.range d /\
          RefinementError.severity e = Diagnostic.severity d /\
          Diagnostic.data d = Some (RefinementError.kind e).
Proof.
  intros K uri diagnostics s s' Hret.
  destruct (find isLiquidJavaError diagnostics) as [d|] eqn:Hfind.
  - destruct (Diagnostic.data d) as [errorKind|] eqn:Hdata.
    + destruct (handleDiagnostics_found K uri _ s _ _ Hfind Hdata)
        as (s1 & Hret1 & Herr & _ & Htrace).
      rewrite Hret in Hret1. injection Hret1 as <-.
      eexists. split; [exact Htrace|].
      assert (Hd : In d diagnostics).
      { apply find_first in Hfind as (before & after & -> & _).
        apply in_or_app. right. now left. }
      intros e He.
      assert (He' : errorDiagnostic s' = Some e).
      { destruct He as [He|[He|He]]; auto.
        - apply in_app_or in He as [He|[He|[]]]; [|discriminate He].
          apply in_sent in He as [He|He]; [|discriminate He].
          injection He as ->. exact Herr.
        - apply in_app_or in He as [He|[He|[]]]; [|discriminate He].
          apply in_sent in He as [He|He]; [discriminate He|].
          injection He as ->. exact Herr. }
      rewrite Herr in He'. injection He' as <-. simpl.
      repeat split. exists d. repeat split; auto.
    + unfold handleDiagnostics in Hret. rewrite Hfind, Hdata in Hret. discriminate.
  - destruct (handleDiagnostics_not_found K uri _ s Hfind)
      as (s1 & Hret1 & Herr & _ & Htrace).
    rewrite Hret in Hret1. injection Hret1 as <-.
    eexists. split; [exact Htrace|].
    intros e [He|[He|He]].
    + apply in_app_or in He as [He|[He|[]]]; [|discriminate He].
      apply in_sent in He as [He|He]; discriminate He.
    + apply in_app_or in He as [He|[He|[]]]; [|discriminate He].
      apply in_sent in He as [He|He]; discriminate He.
    + rewrite Herr in He. discriminate.
Qed.

Lemma refinementError_example_fields_witness :
  exists e,
    errorDiagnostic
      (match handleDiagnostics sample_constants sample_uri sample_diagnostics activate with
       | Returned s' | Thrown _ s' => s'
       end) = Some e /\
    RefinementError.expected e = JString "x > 0" /\
    RefinementError.found e = JObject [("value", JString "x > 0")] /\
    RefinementError.translationTable e = JObject [] /\
    RefinementError.message e = "refinement x > 0 violated".
Proof.
  destruct (refinementError_example_fields sample_constants sample_uri
              sample_diagnostics activate _ eq_refl) as (new & _ & Hfields).
  eexists. split; [reflexivity|].
  destruct (Hfields _ (or_intror (or_intror eq_refl))) as (He & Hf & Ht & _).
  repeat split; assumption.
Defined.

(** ** Case analysis of one turn of the event loop *)

Ltac dispatch_in H :=
  cbv [step resume defined negb andb
       serverProcess client socket statusBarItem errorDiagnostic webviewProvider
       clientInstance processListening processClosed saveListener tasks trace
       view] in H.

Ltac norm_in H :=
  cbv [step resume deactivate onDidChangeState middleware handleDiagnostics
       onDidSaveTextDocument onDidReceiveMessage onStdout onStderr onProcessError
       onProcessClose serverOptions runClient_started runClient
       activate_prerequisites runLanguageServer_spawn runLanguageServer
       stopExtension stopExtension_closeSocket stopExtension_clearProcess
       resume_caller killProcess sendMessage resolveWebviewView updateStatusBar
       nothingToStop defined negb andb
       logInfo logError emit suspend
       set_serverProcess set_client set_socket set_statusBarItem set_errorDiagnostic
       set_webviewProvider set_clientInstance set_processListening set_processClosed
       set_saveListener set_tasks set_trace
       serverProcess client socket statusBarItem errorDiagnostic webviewProvider
       clientInstance processListening processClosed saveListener tasks trace
       view serverPort destroyError] in H.

Ltac split_in H :=
  match type of H with
  | context [match ?x with _ => _ end] =>
      lazymatch x with
      | context [match _ with _ => _ end] => fail
      | _ => first [ is_var x; destruct x | destruct x eqn:? ]
      end
  end.

(** Every way [H : step K H s i = Some s'] can hold, for [s] given by its
    fields: first the input, the suspended function and the outcome, then the
    branches of the code that runs. *)
Ltac step_cases H :=
  dispatch_in H;
  repeat (split_in H; try discriminate H; dispatch_in H);
  norm_in H;
  repeat (split_in H; try discriminate H; norm_in H).

Lemma run_app K H inputs1 inputs2 s :
  run K H s (inputs1 ++ inputs2)
  = match run K H s inputs1 with
    | Some s' => run K H s' inputs2
    | None => None
    end.
Proof.
  revert s. induction inputs1 as [|i inputs1 IH]; intros s; simpl; auto.
  destruct (step K H s i); auto.
Qed.

(** Induction on the runs of the extension. *)
Lemma run_invariant K H (P : State -> Prop) :
  (forall s i s', P s -> step K H s i = Some s' -> P s') ->
  forall inputs s s', P s -> run K H s inputs = Some s' -> P s'.
Proof.
  intros Hstep. induction inputs as [|i inputs IH]; intros s s' Hs Hrun; simpl in Hrun.
  - now injection Hrun as <-.
  - destruct (step K H s i) as [s1|] eqn:Hs1; [|discriminate].
    exact (IH s1 s' (Hstep s i s1 Hs Hs1) Hrun).
Qed.

Lemma reachable_invariant K H (P : State -> Prop) :
  P activate ->
  (forall s i s', P s -> step K H s i = Some s' -> P s') ->
  forall s, reachable K H s -> P s.
Proof.
  intros Hinit Hstep s [inputs Hrun].
  exact (run_invariant K H P Hstep inputs activate s Hinit Hrun).
Qed.

(** ** Stopping

    [stopExtension] between its suspension points, and calls of it in
    sequence. *)

#[local] Arguments String.append : simpl never.
#[local] Arguments step : simpl never.

Lemma nth_error_snoc {A} (l : list A) (x : A) : nth_error (l ++ [x]) (length l) = Some x.
Proof. induction l; simpl; auto. Qed.

Lemma remove_nth_snoc {A} (l : list A) (x : A) : remove_nth (length l) (l ++ [x]) = l.
Proof. induction l; simpl; auto. now rewrite IHl. Qed.

Lemma count_app f l1 l2 : count f (l1 ++ l2) = (count f l1 + count f l2)%nat.
Proof. unfold count. now rewrite filter_app, length_app. Qed.

Lemma step_settle_last K H s ts t o :
  tasks s = (ts ++ [t])%list ->
  step K H s (Settle (length ts) o) = resume K H t o (set_tasks ts s).
Proof.
  intros Hts. unfold step. now rewrite Hts, nth_error_snoc, remove_nth_snoc.
Qed.

Ltac settle_last :=
  erewrite step_settle_last by (simpl; reflexivity); simpl.

Lemma stopExtension_call_active K H reason k stopResult s :
  nothingToStop s = false ->
  admissible s stopResult ->
  exists s',
    stopExtension_call K H reason k stopResult (Fulfilled VUndefined) s = Some s' /\
    client s' = None /\ socket s' = None /\ serverProcess s' = None /\
    shows stopped s' /\
    tasks s' = tasks s /\
    errorDiagnostic s' = errorDiagnostic s /\
    trace s' = (trace s ++ teardown_events reason stopResult s ++ caller_events k)%list.
Proof.
  intros Hguard Hadm. unfold stopExtension_call, stopExtension. rewrite Hguard.
  destruct s as [proc cl sk bar err web inst lis closed save ts tr].
  unfold nothingToStop, admissible, teardown_events in *. simpl in *.
  destruct stopResult as [[]|e]; try contradiction;
    destruct cl as [c|]; try congruence;
    destruct sk as [[port [e'|]]|]; destruct proc as [p|]; try discriminate;
    simpl; settle_last; settle_last;
    destruct k; simpl; eexists; (split; [reflexivity|]); simpl;
    rewrite <- ?app_assoc; repeat split.
Qed.

Lemma stopExtension_call_idle K H reason k stopResult killResult s :
  nothingToStop s = true ->
  exists s',
    stopExtension_call K H reason k stopResult killResult s = Some s' /\
    nothingToStop s' = true /\
    statusBarItem s' = statusBarItem s /\
    tasks s' = tasks s /\
    errorDiagnostic s' = errorDiagnostic s /\
    trace s' = (trace s ++ LogInfo Client "Extension already stopped"
                          :: caller_events k)%list.
Proof.
  intros Hguard. unfold stopExtension_call, stopExtension. rewrite Hguard.
  eexists. split; [reflexivity|].
  destruct k; simpl; rewrite <- ?app_assoc; repeat split; auto.
Qed.

Lemma tally_app l1 l2 :
  tally (l1 ++ l2) = map (fun p => (fst p + snd p)%nat) (combine (tally l1) (tally l2)).
Proof. unfold tally. simpl. now rewrite !count_app. Qed.

Lemma tally_read {l a b c d e f} :
  tally l = [a; b; c; d; e; f] ->
  count isClientStop l = a /\ count isSocketDestroy l = b /\ count isKill l = c /\
  count isUpdateStatusBar l = d /\ count isStoppingLog l = e /\
  count isAlreadyStoppedLog l = f.
Proof. unfold tally. intros [= -> -> -> -> -> ->]. repeat split. Qed.

Lemma tally_caller_events k : tally (caller_events k) = [0; 0; 0; 0; 0; 0]%nat.
Proof. destruct k; reflexivity. Qed.

Lemma prefix_append (p r : string) : prefix p (p ++ r) = true.
Proof.
  induction p as [|c p IH]; simpl.
  - now destruct r.
  - unfold String.append; fold String.append.
    destruct (ascii_dec c c); [exact IH|congruence].
Qed.

Lemma tally_stopping_log reason :
  tally [LogInfo Client ("Stopping LiquidJava extension: " ++ reason)]
  = [0; 0; 0; 0; 1; 0]%nat.
Proof.
  unfold tally, count, filter, isStoppingLog, isAlreadyStoppedLog.
  rewrite prefix_append.
  replace ("Stopping LiquidJava extension: " ++ reason =? "Extension already stopped")%string
    with false by reflexivity.
  reflexivity.
Qed.

Lemma tally_teardown_events reason stopResult s :
  tally (teardown_events reason stopResult s)
  = [ if defined (client s) then 1 else 0;
      if defined (socket s) then 1 else 0;
      if defined (serverProcess s) then 1 else 0;
      1; 1; 0 ]%nat.
Proof.
  unfold teardown_events.
  change [LogInfo Client ("Stopping LiquidJava extension: " ++ reason);
          UpdateStatusBar stopped]
    with ([LogInfo Client ("Stopping LiquidJava extension: " ++ reason)]
          ++ [UpdateStatusBar stopped])%list.
  rewrite <- app_assoc, tally_app, tally_stopping_log.
  destruct (client s), stopResult, (socket s) as [[port [e'|]]|], (serverProcess s);
    reflexivity.
Qed.

Lemma stopExtension_calls_idle K H rest :
  forall s,
    nothingToStop s = true ->
    exists s' new,
      stopExtension_calls K H rest s = Some s' /\
      trace s' = (trace s ++ new)%list /\
      nothingToStop s' = true /\
      statusBarItem s' = statusBarItem s /\
      tasks s' = tasks s /\
      errorDiagnostic s' = errorDiagnostic s /\
      tally new = [0; 0; 0; 0; 0; length rest]%nat.
Proof.
  induction rest as [|[[[reason k] stopResult] killResult] rest IH]; intros s Hguard.
  - exists s, []. simpl. rewrite app_nil_r. repeat split; auto.
  - destruct (stopExtension_call_idle K H reason k stopResult killResult s Hguard)
      as (s1 & Hcall & Hguard1 & Hbar1 & Htasks1 & Herr1 & Htrace1).
    destruct (IH s1 Hguard1) as (s' & new & Hcalls & Htrace & Hguard' & Hbar & Htasks & Herr & Htally).
    exists s', (LogInfo Client "Extension already stopped" :: caller_events k ++ new)%list.
    simpl. rewrite Hcall. split; [exact Hcalls|].
    split. { rewrite Htrace, Htrace1, <- app_assoc. reflexivity. }
    repeat split; try congruence.
    change (LogInfo Client "Extension already stopped" :: caller_events k ++ new)%list
      with ([LogInfo Client "Extension already stopped"] ++ caller_events k ++ new)%list.
    rewrite !tally_app, tally_caller_events, Htally. reflexivity.
Qed.

Lemma nothingToStop_true s :
  nothingToStop s = true <->
  client s = None /\ socket s = None /\ serverProcess s = None.
Proof.
  unfold nothingToStop.
  destruct (client s), (socket s), (serverProcess s); simpl; split;
    try discriminate; auto; intros (? & ? & ?); discriminate.
Qed.

(** C1, as amended.  Calls of [stopExtension] made one after the other, each
    running to its end before the next one starts, with [killProcess]
    fulfilling: when at least one of [client], [socket], [serverProcess] is
    set, the first call stops every resource that is set exactly once
    ([client.stop()], [socket.destroy()] and the kill signal are issued once
    each for a reference that is set, never for one that is not), logs
    "Stopping LiquidJava extension" once, updates the status bar once, to
    stopped, and clears the three references; every later call only logs
    "Extension already stopped".  When none of the three references is set,
    every call, the first one too, only logs "Extension already stopped" and
    leaves the status bar as it is. *)
Theorem stopExtension_sequential_calls :
  forall (K : Constants) (H : Host) (s : State) (reason : string) (k : Caller)
         (stopResult : Outcome) (rest : list (string * Caller * Outcome * Outcome)),
    admissible s stopResult ->
    exists s' new,
      stopExtension_calls K H
        ((reason, k, stopResult, Fulfilled VUndefined) :: rest) s = Some s' /\
      trace s' = (trace s ++ new)%list /\
      client s' = None /\ socket s' = None /\ serverProcess s' = None /\
      tasks s' = tasks s /\
      count isClientStop new = (if defined (client s) then 1 else 0)%nat /\
      count isSocketDestroy new = (if defined (socket s) then 1 else 0)%nat /\
      count isKill new = (if defined (serverProcess s) then 1 else 0)%nat /\
      if nothingToStop s
      then statusBarItem s' = statusBarItem s /\
           count isUpdateStatusBar new = 0%nat /\
           count isStoppingLog new = 0%nat /\
           count isAlreadyStoppedLog new = S (length rest)
      else shows stopped s' /\
           count isUpdateStatusBar new = 1%nat /\
           count isStoppingLog new = 1%nat /\
           count isAlreadyStoppedLog new = length rest.
Proof.
  intros K H s reason k stopResult rest Hadm.
  destruct (nothingToStop s) eqn:Hguard.
  - destruct (stopExtension_calls_idle K H
                ((reason, k, stopResult, Fulfilled VUndefined) :: rest) s Hguard)
      as (s' & new & Hcalls & Htrace & Hguard' & Hbar & Htasks & _ & Htally).
    apply nothingToStop_true in Hguard as (Hc & Hs & Hp).
    apply nothingToStop_true in Hguard' as (Hc' & Hs' & Hp').
    destruct (tally_read Htally) as (H1 & H2 & H3 & H4 & H5 & H6).
    exists s', new. rewrite Hc, Hs, Hp. simpl. repeat split; auto.
  - destruct (stopExtension_call_active K H reason k stopResult s Hguard Hadm)
      as (s1 & Hcall & Hc1 & Hs1 & Hp1 & Hshows1 & Htasks1 & _ & Htrace1).
    assert (Hguard1 : nothingToStop s1 = true) by (apply nothingToStop_true; auto).
    destruct (stopExtension_calls_idle K H rest s1 Hguard1)
      as (s' & new & Hcalls & Htrace & Hguard' & Hbar & Htasks & _ & Htally).
    apply nothingToStop_true in Hguard' as (Hc' & Hs' & Hp').
    exists s', (teardown_events reason stopResult s ++ caller_events k ++ new)%list.
    assert (Htally' :
      tally (teardown_events reason stopResult s ++ caller_events k ++ new)
      = [ if defined (client s) then 1 else 0;
          if defined (socket s) then 1 else 0;
          if defined (serverProcess s) then 1 else 0;
          1; 1; length rest ]%nat).
    { rewrite !tally_app, tally_teardown_events, tally_caller_events, Htally.
      simpl. now rewrite !Nat.add_0_r. }
    split. { cbn [stopExtension_calls]. rewrite Hcall. exact Hcalls. }
    split. { rewrite Htrace, Htrace1, <- !app_assoc. reflexivity. }
    destruct (tally_read Htally') as (H1 & H2 & H3 & H4 & H5 & H6).
    assert (Hshows : shows stopped s') by (unfold shows in *; now rewrite Hbar).
    split; [exact Hc'|]. split; [exact Hs'|]. split; [exact Hp'|].
    split; [congruence|].
    split; [exact H1|]. split; [exact H2|]. split; [exact H3|].
    split; [exact Hshows|].
    split; [exact H4|]. split; [exact H5|exact H6].
Qed.

Lemma stopExtension_sequential_calls_witness :
  admissible sample_running (Rejected "Error: stop timed out") /\
  exists s' new,
    stopExtension_calls sample_constants sample_host
      [ ("Extension stopped", Detached, Rejected "Error: stop timed out", resolved);
        ("Extension was disposed", Detached, resolved, resolved);
        ("Extension was deactivated", FromDeactivate, resolved, resolved) ]
      sample_running = Some s' /\
    trace s' = (trace sample_running ++ new)%list /\
    client s' = None /\ socket s' = None /\ serverProcess s' = None /\
    tasks s' = [] /\
    count isClientStop new = 1%nat /\
    count isSocketDestroy new = 1%nat /\
    count isKill new = 1%nat /\
    shows stopped s' /\
    count isUpdateStatusBar new = 1%nat /\
    count isStoppingLog new = 1%nat /\
    count isAlreadyStoppedLog new = 2%nat.
Proof.
  assert (Hadm : admissible sample_running (Rejected "Error: stop timed out"))
    by (vm_compute; discriminate).
  split; [exact Hadm|].
  exact (stopExtension_sequential_calls sample_constants sample_host
           sample_running "Extension stopped" Detached
           (Rejected "Error: stop timed out")
           [ ("Extension was disposed", Detached, resolved, resolved);
             ("Extension was deactivated", FromDeactivate, resolved, resolved) ]
           Hadm).
Defined.

(** C1 fails as stated: [deactivate] called while [activate] waits at its first
    [await] finds none of the three references set, so [stopExtension] only
    logs "Extension already stopped"; the status bar keeps showing loading,
    the activation is not abandoned and goes on to spawn the engine and start
    the client. *)
Lemma stopExtension_before_startup_counterexample :
  reachable sample_constants sample_host activate /\
  exists s',
    step sample_constants sample_host activate Deactivate = Some s' /\
    shows loading s' /\ ~ shows stopped s' /\
    tasks s' = [Activate_applyItalicOverlay] /\
    exists s'',
      run sample_constants sample_host s' startup = Some s'' /\
      serverProcess s'' = Some sample_process /\
      client s'' <> None /\
      ~ shows stopped s''.
Proof.
  split; [exists []; reflexivity|].
  eexists. split; [reflexivity|].
  split; [reflexivity|]. split; [discriminate|]. split; [reflexivity|].
  eexists. split; [vm_compute; reflexivity|].
  split; [reflexivity|]. split; discriminate.
Qed.

(** The two guarded teardown steps: a rejection of [client.stop()] and an
    exception of [socket.destroy()] are logged, nothing leaves the function,
    both references are cleared all the same, and the kill of the engine
    process is still issued. *)
Lemma stopExtension_client_and_socket_errors_logged K H s n k e :
  nth_error (tasks s) n = Some (StopExtension_clientStop true k) ->
  exists s',
    step K H s (Settle n (Rejected e)) = Some s' /\
    client s' = None /\ socket s' = None /\
    serverProcess s' = serverProcess s /\
    trace s'
    = (trace s
       ++ LogError Client ("Error stopping client: " ++ e)
          :: match socket s with
             | Some sk =>
                 SocketDestroy sk
                 :: match destroyError sk with
                    | Some e' => [LogError Client ("Error closing socket: " ++ e')]
                    | None => []
                    end
             | None => []
             end
       ++ match serverProcess s with
          | Some p => [Kill p]
          | None => []
          end)%list /\
    tasks s'
    = (remove_nth n (tasks s) ++ [StopExtension_killProcess (serverProcess s) k])%list.
Proof.
  intros Hn. unfold step. rewrite Hn. cbn [resume].
  unfold stopExtension_closeSocket.
  destruct s as [proc cl sk bar err web inst lis closed save ts tr]. simpl in *.
  destruct sk as [[port [e'|]]|]; destruct proc as [p|]; simpl;
    (eexists; split; [reflexivity|]); simpl; rewrite <- ?app_assoc;
    repeat split.
Qed.

(** C3: the kill step of [stopExtension] is not guarded like the two steps
    before it.  When the promise of [killProcess(serverProcess)] rejects,
    [stopExtension] logs nothing, the rejection leaves it uncaught,
    [serverProcess] keeps its value and the rest of the awaiting caller does
    not run. *)
Theorem killProcess_rejection_escapes :
  forall (K : Constants) (H : Host) (s : State) (n : nat) (p : ChildProcess)
         (k : Caller) (e : Exn),
    nth_error (tasks s) n = Some (StopExtension_killProcess (Some p) k) ->
    exists s',
      step K H s (Settle n (Rejected e)) = Some s' /\
      serverProcess s' = serverProcess s /\
      trace s' = (trace s ++ [Uncaught e])%list /\
      saveListener s' = saveListener s.
Proof.
  intros K H s n p k e Hn. unfold step. rewrite Hn. cbn [resume].
  eexists. split; [reflexivity|]. repeat split.
Qed.

Lemma killProcess_rejection_escapes_witness :
  nth_error (tasks sample_killing) 0
    = Some (StopExtension_killProcess (Some sample_process) Detached) /\
  exists s',
    step sample_constants sample_host sample_killing
      (Settle 0 (Rejected "Error: kill EPERM")) = Some s' /\
    serverProcess s' = Some sample_process /\
    trace s' = (trace sample_killing ++ [Uncaught "Error: kill EPERM"])%list /\
    saveListener s' = true.
Proof.
  split; [reflexivity|].
  exact (killProcess_rejection_escapes sample_constants sample_host
           sample_killing 0 sample_process Detached "Error: kill EPERM" eq_refl).
Defined.

(** C5: a call of [stopExtension] made while another one is suspended at
    [await client?.stop()] is not a no-op.  [client] is cleared only after
    that [await], so the guard lets the second call through: it logs
    "Stopping LiquidJava extension" again, updates the status bar again and
    calls [client.stop()] again. *)
Theorem stopExtension_reentered_while_stopping :
  forall (K : Constants) (H : Host) (s : State) (c : LanguageClient),
    client s = Some c ->
    clientInstance s <> None ->
    exists s1 s2,
      step K H s (DidChangeState ClientState.Stopped) = Some s1 /\
      step K H s1 Dispose = Some s2 /\
      trace s2
      = (trace s
         ++ [ LogInfo Client "Stopping LiquidJava extension: Extension stopped";
              UpdateStatusBar stopped; ClientStop;
              LogInfo Client "Stopping LiquidJava extension: Extension was disposed";
              UpdateStatusBar stopped; ClientStop ])%list /\
      tasks s2
      = (tasks s ++ [ StopExtension_clientStop true Detached;
                      StopExtension_clientStop true Detached ])%list.
Proof.
  intros K H s c Hc Hinst. unfold step.
  destruct s as [proc cl sk bar err web inst lis closed save ts tr]. simpl in *.
  subst cl. destruct inst as [i|]; [|congruence]. simpl.
  unfold onDidChangeState, stopExtension, nothingToStop. simpl.
  eexists _, _. split; [reflexivity|]. split; [reflexivity|].
  simpl. rewrite <- !app_assoc. split; reflexivity.
Qed.

Lemma stopExtension_reentered_while_stopping_witness :
  client sample_exited = Some {| serverPort := 54321 |} /\
  clientInstance sample_exited <> None /\
  exists s1 s2,
    step sample_constants sample_host sample_exited
      (DidChangeState ClientState.Stopped) = Some s1 /\
    step sample_constants sample_host s1 Dispose = Some s2 /\
    trace s2
    = (trace sample_exited
       ++ [ LogInfo Client "Stopping LiquidJava extension: Extension stopped";
            UpdateStatusBar stopped; ClientStop;
            LogInfo Client "Stopping LiquidJava extension: Extension was disposed";
            UpdateStatusBar stopped; ClientStop ])%list /\
    tasks s2
    = [ StopExtension_clientStop true Detached;
        StopExtension_clientStop true Detached ].
Proof.
  assert (Hinst : clientInstance sample_exited <> None) by (vm_compute; discriminate).
  split; [reflexivity|]. split; [exact Hinst|].
  exact (stopExtension_reentered_while_stopping sample_constants sample_host
           sample_exited {| serverPort := 54321 |} eq_refl Hinst).
Defined.

(** The whole scenario: the engine exits with code 1 while the extension is
    running, the client then reports [Stopped], and the subscriptions are
    disposed before the first [stopExtension] has resumed.  The exit code is
    logged and the status bar ends at stopped, but the stop events are
    repeated, the client is stopped three times and the process is sent two
    kill signals. *)
Example process_exit_scenario :
  exists s,
    run sample_constants sample_host sample_running
      [ ProcessClose (Some 1); DidChangeState ClientState.Stopped; Dispose;
        Settle 0 resolved; Settle 0 resolved; Settle 0 resolved; Settle 0 resolved ]
      = Some s /\
    trace s
    = (trace sample_running
       ++ [ LogInfo Server "Process exited with code 1"; ClientStop;
            LogInfo Client "Stopping LiquidJava extension: Extension stopped";
            UpdateStatusBar stopped; ClientStop;
            LogInfo Client "Stopping LiquidJava extension: Extension was disposed";
            UpdateStatusBar stopped; ClientStop;
            SocketDestroy sample_socket;
            Kill sample_process; Kill sample_process ])%list /\
    shows stopped s /\
    client s = None /\ socket s = None /\ serverProcess s = None /\ tasks s = [].
Proof.
  eexists. split; [vm_compute; reflexivity|]. repeat split.
Qed.

(** ** The lifetime of [errorDiagnostic] *)

Lemma step_errorDiagnostic K H s i s' :
  step K H s i = Some s' ->
  (forall uri diagnostics, i <> PublishDiagnostics uri diagnostics) ->
  errorDiagnostic s' = errorDiagnostic s.
Proof.
  intros Hstep Hi.
  destruct s as [proc cl sk bar err web inst lis closed save ts tr].
  destruct i; try (destruct (Hi _ _ eq_refl)).
  all: step_cases Hstep.
  all: injection Hstep as <-; reflexivity.
Qed.

Lemma step_clientInstance K H s i s' :
  step K H s i = Some s' ->
  clientInstance s <> None ->
  clientInstance s' <> None.
Proof.
  intros Hstep Hinst.
  destruct s as [proc cl sk bar err web inst lis closed save ts tr].
  simpl in Hinst. destruct inst as [c|]; [clear Hinst|congruence].
  destruct i.
  all: step_cases Hstep.
  all: injection Hstep as <-; discriminate.
Qed.

Lemma stopExtension_errorDiagnostic reason k s :
  errorDiagnostic (stopExtension reason k s) = errorDiagnostic s.
Proof.
  destruct s as [proc cl sk bar err web inst lis closed save ts tr].
  unfold stopExtension, nothingToStop. simpl.
  destruct cl, proc, sk, k; reflexivity.
Qed.

Lemma errorDiagnostic_needs_client K H s :
  reachable K H s -> errorDiagnostic s <> None -> clientInstance s <> None.
Proof.
  revert s.
  apply (reachable_invariant K H
           (fun s => errorDiagnostic s <> None -> clientInstance s <> None));
    [intros Herr; now destruct Herr|].
  intros s i s' IH Hstep Herr.
  destruct i as [n o| | | |st|uri ds| | |m|data|data|e|code];
    try (apply (step_clientInstance K H _ _ _ Hstep), IH;
         rewrite <- (step_errorDiagnostic K H _ _ _ Hstep); [exact Herr|discriminate]).
  unfold step in Hstep.
  destruct (defined (clientInstance s)) eqn:Hinst; [|discriminate].
  injection Hstep as <-.
  assert (Hkeep : clientInstance (middleware K uri ds s) = clientInstance s).
  { clear. destruct s as [proc cl sk bar err [[]] inst lis closed save ts tr];
      unfold middleware, handleDiagnostics;
      (destruct (find isLiquidJavaError ds) as [d|]; [destruct (Diagnostic.data d)|]);
      reflexivity. }
  rewrite Hkeep. destruct (clientInstance s); [discriminate|discriminate Hinst].
Qed.

(** C2, as amended.  [errorDiagnostic] is non-null only after the language
    client has been created, and only the routing of a diagnostics set
    changes it: no other callback and no step of [stopExtension] writes it.
    A call of [stopExtension] that runs to its end therefore leaves
    [errorDiagnostic] as it found it, also when it was non-null. *)
Theorem errorDiagnostic_changes_only_by_routing :
  forall (K : Constants) (H : Host) (s : State),
    reachable K H s ->
    (errorDiagnostic s <> None -> clientInstance s <> None) /\
    (forall i s',
        step K H s i = Some s' ->
        (forall uri diagnostics, i <> PublishDiagnostics uri diagnostics) ->
        errorDiagnostic s' = errorDiagnostic s) /\
    (forall reason k stopResult killResult s',
        stopExtension_call K H reason k stopResult killResult s = Some s' ->
        errorDiagnostic s' = errorDiagnostic s).
Proof.
  intros K H s Hreach. split; [exact (errorDiagnostic_needs_client K H s Hreach)|].
  split; [intros i s' Hstep Hi; exact (step_errorDiagnostic K H s i s' Hstep Hi)|].
  intros reason k stopResult killResult s' Hcall.
  unfold stopExtension_call in Hcall.
  destruct (nothingToStop s).
  - injection Hcall as <-. apply stopExtension_errorDiagnostic.
  - destruct (step K H (stopExtension reason k s) _) as [s1|] eqn:Hs1; [|discriminate].
    rewrite (step_errorDiagnostic K H _ _ _ Hcall) by discriminate.
    rewrite (step_errorDiagnostic K H _ _ _ Hs1) by discriminate.
    apply stopExtension_errorDiagnostic.
Qed.

Lemma errorDiagnostic_changes_only_by_routing_witness :
  reachable sample_constants sample_host sample_running /\
  exists s',
    stopExtension_call sample_constants sample_host "Extension was disposed" Detached
      resolved resolved sample_running = Some s' /\
    errorDiagnostic s' = errorDiagnostic sample_running.
Proof.
  assert (Hreach : reachable sample_constants sample_host sample_running)
    by (exists startup; vm_compute; reflexivity).
  split; [exact Hreach|].
  destruct (stopExtension_call sample_constants sample_host "Extension was disposed"
              Detached resolved resolved sample_running) as [s'|] eqn:Hcall.
  - exists s'. split; [reflexivity|].
    exact (proj2 (proj2 (errorDiagnostic_changes_only_by_routing
                           sample_constants sample_host sample_running Hreach))
             "Extension was disposed" Detached resolved resolved s' Hcall).
  - vm_compute in Hcall. discriminate Hcall.
Defined.

(** C2 fails as stated: an error routed while the extension runs is still in
    [errorDiagnostic] once [stopExtension] has completed, with the three
    references cleared and the status bar at stopped; the webview, when it
    then reports ready, is sent that error again. *)
Lemma errorDiagnostic_after_stop_counterexample :
  exists s e,
    run sample_constants sample_host sample_running
      [ PublishDiagnostics sample_uri sample_diagnostics;
        Dispose; Settle 0 resolved; Settle 0 resolved ] = Some s /\
    client s = None /\ socket s = None /\ serverProcess s = None /\
    tasks s = [] /\ shows stopped s /\
    errorDiagnostic s = Some e /\
    RefinementError.message e = "refinement x > 0 violated" /\
    exists s',
      run sample_constants sample_host s
        [ ResolveWebviewView;
          WebviewMessage {| msg_type := "ready"; filePath := "";
                            msg_line := 0; msg_character := 0 |} ] = Some s' /\
      trace s' = (trace s ++ [ SendMessage (RefinementErrorMessage (Some e));
                               PostMessage (RefinementErrorMessage (Some e)) ])%list.
Proof.
  eexists _, _. split; [vm_compute; reflexivity|].
  repeat (split; [reflexivity|]).
  eexists. split; [vm_compute; reflexivity|]. reflexivity.
Qed.

(** ** Failure to spawn the engine *)

(** C4, as amended.  A spawn failure, reported by the ['error'] event of the
    engine process, is only logged, on the engine side, as "Failed to start:
    <err>": that listener shows no message, leaves the status bar and the
    three references as they are and does not call [stopExtension].  The
    failure reaches the user and a stop through what follows it: a rejected
    [connectToPort] calls [stopExtension("Failed to connect to server")],
    and a rejected [client.start()] shows the error message "LiquidJava
    failed to initialize: <e>", logs it and calls
    [stopExtension("Failed to initialize")]; either call, finding the engine
    process still referenced, sets the status bar to stopped and starts the
    teardown. *)
Theorem spawn_failure_is_only_logged :
  forall (K : Constants) (H : Host) (s : State),
    (forall err,
        processListening s = true ->
        exists s',
          step K H s (ProcessError err) = Some s' /\
          trace s' = (trace s ++ [LogError Server ("Failed to start: " ++ err)])%list /\
          statusBarItem s' = statusBarItem s /\
          serverProcess s' = serverProcess s /\
          client s' = client s /\
          socket s' = socket s /\
          tasks s' = tasks s) /\
    (forall n port e,
        nth_error (tasks s) n = Some (ServerOptions_connectToPort port) ->
        serverProcess s <> None ->
        exists s',
          step K H s (Settle n (Rejected e)) = Some s' /\
          trace s'
          = (trace s
             ++ [ LogInfo Client "Stopping LiquidJava extension: Failed to connect to server";
                  UpdateStatusBar stopped ]
             ++ (if defined (client s) then [ClientStop] else []))%list /\
          shows stopped s' /\
          tasks s'
          = (remove_nth n (tasks s)
             ++ [StopExtension_clientStop (defined (client s)) (FromServerOptions e)])%list) /\
    (forall n e,
        nth_error (tasks s) n = Some RunClient_start ->
        serverProcess s <> None ->
        exists s',
          step K H s (Settle n (Rejected e)) = Some s' /\
          trace s'
          = (trace s
             ++ [ ShowErrorMessage ("LiquidJava failed to initialize: " ++ e);
                  LogError Client ("Failed to initialize: " ++ e);
                  LogInfo Client "Stopping LiquidJava extension: Failed to initialize";
                  UpdateStatusBar stopped ]
             ++ (if defined (client s) then [ClientStop] else []))%list /\
          shows stopped s' /\
          tasks s'
          = (remove_nth n (tasks s)
             ++ [StopExtension_clientStop (defined (client s)) FromRunClient])%list).
Proof.
  intros K H s.
  destruct s as [proc cl sk bar err web inst lis closed save ts tr].
  split; [|split].
  - intros e Hlis. simpl in Hlis. subst lis.
    eexists. split; [reflexivity|]. repeat split.
  - intros n port e Hn Hproc. simpl in Hn, Hproc.
    destruct proc as [p|]; [clear Hproc|congruence].
    unfold step. simpl tasks. rewrite Hn. cbn [resume].
    unfold stopExtension, nothingToStop. simpl.
    destruct cl as [c|]; simpl; (eexists; split; [reflexivity|]); simpl;
      rewrite <- ?app_assoc; repeat split.
  - intros n e Hn Hproc. simpl in Hn, Hproc.
    destruct proc as [p|]; [clear Hproc|congruence].
    unfold step. simpl tasks. rewrite Hn. cbn [resume].
    unfold runClient_started, stopExtension, nothingToStop. simpl.
    destruct cl as [c|]; simpl; (eexists; split; [reflexivity|]); simpl;
      rewrite <- ?app_assoc; repeat split.
Qed.

Lemma spawn_failure_is_only_logged_witness :
  processListening sample_spawned = true /\
  exists s',
    step sample_constants sample_host sample_spawned
      (ProcessError "Error: spawn /usr/bin/java ENOENT") = Some s' /\
    trace s'
    = (trace sample_spawned
       ++ [LogError Server "Failed to start: Error: spawn /usr/bin/java ENOENT"])%list /\
    statusBarItem s' = statusBarItem sample_spawned /\
    serverProcess s' = serverProcess sample_spawned /\
    client s' = client sample_spawned /\
    socket s' = socket sample_spawned /\
    tasks s' = tasks sample_spawned.
Proof.
  assert (Hlis : processListening sample_spawned = true) by (vm_compute; reflexivity).
  split; [exact Hlis|].
  exact (proj1 (spawn_failure_is_only_logged sample_constants sample_host
                  sample_spawned)
           "Error: spawn /usr/bin/java ENOENT" Hlis).
Defined.

(** C4 fails as stated: after the ['error'] event of the spawned process no
    message has been shown to the user, the status bar still shows loading,
    the process reference is still set and no stop has begun; the activation
    goes on to create and start the client. *)
Lemma spawn_failure_counterexample :
  exists s',
    run sample_constants sample_host activate
      (startup_spawned ++ [ProcessError "Error: spawn /usr/bin/java ENOENT"])
      = Some s' /\
    count isNotification (trace s') = 0%nat /\
    count isStoppingLog (trace s') = 0%nat /\
    count isKill (trace s') = 0%nat /\
    shows loading s' /\
    serverProcess s' = Some sample_process /\
    tasks s' = [Activate_runLanguageServer 54321] /\
    exists s'',
      step sample_constants sample_host s' (Settle 0 resolved) = Some s'' /\
      client s'' = Some {| serverPort := 54321 |} /\
      tasks s'' = [RunClient_start].
Proof.
  eexists. split; [vm_compute; reflexivity|].
  repeat (split; [vm_compute; reflexivity|]).
  eexists. split; [vm_compute; reflexivity|]. split; reflexivity.
Qed.

(** What follows a spawn failure: the connection attempt is rejected, which
    stops the extension, and the start of the client is rejected, which shows
    the error message. *)
Example spawn_failure_scenario :
  exists s,
    run sample_constants sample_host sample_spawned
      [ ProcessError "Error: spawn /usr/bin/java ENOENT";
        Settle 0 resolved;
        ServerOptionsCall;
        Settle 1 (Rejected "Error: connect ECONNREFUSED");
        Settle 1 resolved; Settle 1 resolved;
        Settle 0 (Rejected "Error: connect ECONNREFUSED") ] = Some s /\
    trace s
    = (trace sample_spawned
       ++ [ LogError Server "Failed to start: Error: spawn /usr/bin/java ENOENT";
            LogInfo Client "Starting LiquidJava client...";
            ClientStart;
            ConnectToPort 54321;
            LogInfo Client "Stopping LiquidJava extension: Failed to connect to server";
            UpdateStatusBar stopped;
            ClientStop;
            Kill sample_process;
            ServerOptionsReject "Error: connect ECONNREFUSED";
            ShowErrorMessage "LiquidJava failed to initialize: Error: connect ECONNREFUSED";
            LogError Client "Failed to initialize: Error: connect ECONNREFUSED";
            LogInfo Client "Extension already stopped" ])%list /\
    shows stopped s.
Proof.
  eexists. split; [vm_compute; reflexivity|]. split; reflexivity.
Qed.

(** ** Debug mode *)

Lemma Forall_remove_nth {A} (P : A -> Prop) (l : list A) :
  Forall P l -> forall n, Forall P (remove_nth n l).
Proof.
  induction 1 as [|x l Hx Hl IH]; intros [|n]; simpl; auto.
Qed.

Lemma Forall_nth_error {A} (P : A -> Prop) (l : list A) n x :
  Forall P l -> nth_error l n = Some x -> P x.
Proof.
  intros Hl Hn. rewrite Forall_forall in Hl. exact (Hl x (nth_error_In l n Hn)).
Qed.

Ltac solve_Forall :=
  repeat first
    [ assumption
    | apply Forall_app; split
    | apply Forall_cons
    | apply Forall_nil
    | apply Forall_remove_nth
    | exact I
    | reflexivity
    | progress simpl ].

Lemma debug_invariant_step K H s i s' :
  DEBUG_MODE K = true ->
  debug_invariant K s ->
  step K H s i = Some s' ->
  debug_invariant K s'.
Proof.
  intros Hdebug (Hproc & Hlis & Htrace & Htasks & Hclient & Hinst) Hstep.
  destruct s as [proc cl sk bar err web inst lis closed save ts tr].
  simpl in *. subst proc lis.
  destruct i.
  all: step_cases Hstep.
  all: try congruence.
  all: injection Hstep as <-.
  all: repeat match goal with
         | Hn : nth_error _ _ = Some _ |- _ =>
             apply (Forall_nth_error _ _ _ _ Htasks) in Hn; simpl in Hn
         end.
  all: try contradiction.
  all: unfold debug_invariant; simpl.
  all: repeat split; try solve_Forall; try discriminate; auto.
  all: try (intros c0 [= <-]; simpl; auto).
  all: exact (Hinst _ eq_refl).
Qed.

Lemma debug_invariant_activate K : debug_invariant K activate.
Proof.
  unfold debug_invariant. simpl. repeat split; try discriminate.
  - repeat constructor.
  - repeat constructor.
Qed.

(** C9.  With [DEBUG_MODE] set, [runLanguageServer] returns [DEBUG_PORT]
    after logging it and nothing else; and whatever happens after [activate]
    was called, [getAvailablePort] is never called, no process is spawned,
    [serverProcess] stays undefined, the port [activate] receives from
    [runLanguageServer] and gives to the client is [DEBUG_PORT], and every
    connection the client makes is to [DEBUG_PORT]. *)
Theorem debug_mode_uses_fixed_port :
  forall (K : Constants) (H : Host),
    DEBUG_MODE K = true ->
    (forall javaExecutablePath s,
        trace (runLanguageServer K javaExecutablePath s)
        = (trace s ++ [LogInfo Client ("DEBUG MODE: Using fixed port "
                                       ++ string_of_Z (DEBUG_PORT K))])%list /\
        tasks (runLanguageServer K javaExecutablePath s)
        = (tasks s ++ [Activate_runLanguageServer (DEBUG_PORT K)])%list /\
        serverProcess (runLanguageServer K javaExecutablePath s) = serverProcess s) /\
    (forall inputs s,
        run K H activate inputs = Some s ->
        ~ In GetAvailablePort (trace s) /\
        (forall p, ~ In (Spawn p) (trace s)) /\
        serverProcess s = None /\
        (forall port, In (Activate_runLanguageServer port) (tasks s) ->
                      port = DEBUG_PORT K) /\
        (forall c, client s = Some c -> serverPort c = DEBUG_PORT K) /\
        (forall port, In (ConnectToPort port) (trace s) -> port = DEBUG_PORT K)).
Proof.
  intros K H Hdebug. split.
  - intros java s. unfold runLanguageServer. rewrite Hdebug. repeat split.
  - intros inputs s Hrun.
    assert (Hinv : debug_invariant K s).
    { apply (run_invariant K H (debug_invariant K)
               (fun s0 i s1 => debug_invariant_step K H s0 i s1 Hdebug)
               inputs activate s (debug_invariant_activate K) Hrun). }
    destruct Hinv as (Hproc & _ & Htrace & Htasks & Hclient & _).
    rewrite Forall_forall in Htrace, Htasks.
    repeat split; auto.
    + intros Hin. exact (Htrace _ Hin).
    + intros p Hin. exact (Htrace _ Hin).
    + intros port Hin. exact (Htasks _ Hin).
    + intros port Hin. exact (Htrace _ Hin).
Qed.

Lemma debug_mode_uses_fixed_port_witness :
  DEBUG_MODE debug_constants = true /\
  exists s,
    run debug_constants sample_host activate startup_debug = Some s /\
    In (ConnectToPort 50000) (trace s) /\
    ~ In GetAvailablePort (trace s) /\
    (forall p, ~ In (Spawn p) (trace s)) /\
    serverProcess s = None /\
    client s = Some {| serverPort := 50000 |}.
Proof.
  split; [reflexivity|].
  destruct (run debug_constants sample_host activate startup_debug) as [s|] eqn:Hrun.
  - exists s. split; [reflexivity|].
    destruct (proj2 (debug_mode_uses_fixed_port debug_constants sample_host eq_refl)
                startup_debug s Hrun) as (Hport & Hspawn & Hproc & _ & Hclient & _).
    vm_compute in Hrun. injection Hrun as <-.
    split; [vm_compute; tauto|]. repeat split; auto.
  - vm_compute in Hrun. discriminate Hrun.
Defined.

(** ** The example values, on every run *)

Lemma example_invariant_step K H s i s' :
  example_invariant K s ->
  step K H s i = Some s' ->
  example_invariant K s'.
Proof.
  intros (Herr & Htrace) Hstep.
  destruct s as [proc cl sk bar err web inst lis closed save ts tr].
  simpl in *.
  destruct i.
  all: step_cases Hstep.
  all: injection Hstep as <-.
  all: unfold example_invariant; simpl.
  all: split; [try (intros e0 [= <-]; repeat split); try discriminate; auto|].
  all: try solve_Forall.
  all: try (repeat split).
  all: try (apply Herr; reflexivity).
Qed.

(** Whatever happens after [activate] was called, every refinement error
    given to the webview provider, by [handleDiagnostics] or again when the
    webview reports ready, has the example values, and so has the one kept
    in [errorDiagnostic]. *)
Lemma sent_errors_have_example_fields K H s :
  reachable K H s ->
  (forall e, errorDiagnostic s = Some e -> has_example_fields K e) /\
  (forall e, In (SendMessage (RefinementErrorMessage (Some e))) (trace s) ->
             has_example_fields K e) /\
  (forall e, In (PostMessage (RefinementErrorMessage (Some e))) (trace s) ->
             has_example_fields K e).
Proof.
  intros Hreach.
  assert (Hinv : example_invariant K s).
  { revert s Hreach. apply (reachable_invariant K H (example_invariant K)).
    - split; [discriminate|]. repeat constructor.
    - intros s i s'. apply example_invariant_step. }
  destruct Hinv as (Herr & Htrace). rewrite Forall_forall in Htrace.
  split; [exact Herr|].
  split; intros e Hin; exact (Htrace _ Hin).
Qed.

(** ** Missing prerequisites *)

Lemma prerequisite_invariant_step K H s i s' :
  prerequisite_invariant s ->
  step K H s i = Some s' ->
  jarReportedPresent i = false \/ javaMissing H = true ->
  prerequisite_invariant s' /\
  (count isNotification (trace s) <= count isNotification (trace s'))%nat /\
  (jarAnswered i = true -> count isNotification (trace s') = 1%nat).
Proof.
  intros (Hproc & Hcl & Hsk & Hinst & Hlis & Hsave & Htasks & Htrace & Hone & Hshows)
         Hstep Hmissing.
  destruct s as [proc cl sk bar err web inst lis closed save ts tr].
  simpl in *. subst proc cl sk inst lis save.
  unfold javaMissing in Hmissing.
  destruct i.
  all: step_cases Hstep.
  all: try (destruct Hmissing; discriminate).
  all: injection Hstep as <-.
  all: repeat match goal with
         | Hn : nth_error _ _ = Some _ |- _ =>
             pose proof (Forall_nth_error _ _ _ _ Htasks Hn) as Hearly;
             simpl in Hearly; try contradiction;
             destruct ts as [|t0 [|t1 ts']]; simpl in Hone; try lia;
             match type of Hn with
             | nth_error _ ?n = _ =>
                 destruct n as [|[|n']]; simpl in Hn; try discriminate Hn
             end;
             clear Hn
         end.
  all: unfold prerequisite_invariant, shows in *; simpl in *; rewrite ?count_app.
  all: unfold count in *; simpl in *.
  all: repeat split; try solve_Forall; try discriminate; try lia; auto.
  all: try (intros; reflexivity).
  all: try (intros; apply Hshows; lia).
Qed.

Lemma prerequisite_invariant_activate : prerequisite_invariant activate.
Proof.
  unfold prerequisite_invariant, shows. simpl.
  repeat split; try discriminate; try (repeat constructor).
Qed.

Lemma prerequisite_invariant_run K H inputs :
  forall s s',
    prerequisite_invariant s ->
    run K H s inputs = Some s' ->
    existsb jarReportedPresent inputs = false \/ javaMissing H = true ->
    prerequisite_invariant s' /\
    (count isNotification (trace s) <= count isNotification (trace s'))%nat /\
    (existsb jarAnswered inputs = true -> count isNotification (trace s') = 1%nat).
Proof.
  induction inputs as [|i inputs IH]; intros s s' Hinv Hrun Hmissing;
    cbn [run existsb] in *.
  - injection Hrun as <-. split; [exact Hinv|]. split; [lia|]. discriminate.
  - destruct (step K H s i) as [s1|] eqn:Hstep; [|discriminate].
    assert (Hi : jarReportedPresent i = false \/ javaMissing H = true).
    { destruct Hmissing as [Hjar|Hjava]; auto.
      apply orb_false_iff in Hjar as [Hi _]. auto. }
    assert (Hrest : existsb jarReportedPresent inputs = false \/ javaMissing H = true).
    { destruct Hmissing as [Hjar|Hjava]; auto.
      apply orb_false_iff in Hjar as [_ Hrest]. auto. }
    destruct (prerequisite_invariant_step K H s i s1 Hinv Hstep Hi)
      as (Hinv1 & Hmono1 & Hanswered1).
    destruct (IH s1 s' Hinv1 Hrun Hrest) as (Hinv' & Hmono & Hanswered).
    split; [exact Hinv'|]. split; [lia|].
    intros Hany. apply orb_true_iff in Hany as [Hnow|Hlater]; auto.
    specialize (Hanswered1 Hnow).
    destruct Hinv' as (_ & _ & _ & _ & _ & _ & _ & _ & Hone & _). lia.
Qed.

Lemma count_positive f l :
  (0 < count f l)%nat -> exists e, In e l /\ f e = true.
Proof.
  unfold count. induction l as [|a l IH]; simpl; [lia|].
  destruct (f a) eqn:Hfa.
  - intros _. exists a. auto.
  - intros Hpos. destruct (IH Hpos) as (e & He & Hfe). exists e. auto.
Qed.

(** C6.  When a prerequisite is missing -- [isJarPresent()] never answers
    that the jar is there, or [findJavaExecutable("java")] finds nothing --
    then, whatever else happens after [activate] was called,
    [getAvailablePort] is never called, no process is spawned, no client is
    created, and at most one message is shown to the user.  Once
    [isJarPresent()] has answered, the activation is over: exactly one
    message has been shown, the warning "LiquidJava API Jar Not Found in
    Workspace" or the error message "LiquidJava - Java Runtime Not Found in
    JAVA_HOME or PATH", no function is left suspended, and the status bar
    shows stopped and keeps showing it. *)
Theorem missing_prerequisite_aborts_activation :
  forall (K : Constants) (H : Host) (inputs : list Input) (s : State),
    run K H activate inputs = Some s ->
    existsb jarReportedPresent inputs = false \/ javaMissing H = true ->
    ~ In GetAvailablePort (trace s) /\
    (forall p, ~ In (Spawn p) (trace s)) /\
    serverProcess s = None /\ client s = None /\ socket s = None /\
    (count isNotification (trace s) <= 1)%nat /\
    (existsb jarAnswered inputs = true ->
       count isNotification (trace s) = 1%nat /\
       (In (ShowWarningMessage "LiquidJava API Jar Not Found in Workspace") (trace s) \/
        In (ShowErrorMessage "LiquidJava - Java Runtime Not Found in JAVA_HOME or PATH")
          (trace s)) /\
       tasks s = [] /\
       shows stopped s).
Proof.
  intros K H inputs s Hrun Hmissing.
  destruct (prerequisite_invariant_run K H inputs activate s
              prerequisite_invariant_activate Hrun Hmissing)
    as ((Hproc & Hcl & Hsk & _ & _ & _ & _ & Htrace & Hone & Hshows) & _ & Hanswered).
  rewrite Forall_forall in Htrace.
  split; [intros Hin; exact (Htrace _ Hin)|].
  split; [intros p Hin; exact (Htrace _ Hin)|].
  repeat (split; [assumption|]).
  split; [lia|].
  intros Hany. specialize (Hanswered Hany).
  split; [exact Hanswered|]. split.
  - destruct (count_positive isNotification (trace s)) as (e & He & Hnotif); [lia|].
    specialize (Htrace e He).
    destruct e; try discriminate Hnotif; simpl in Htrace; subst msg; auto.
  - split; [|exact (Hshows Hanswered)].
    destruct (tasks s); [reflexivity|simpl in Hone; lia].
Qed.

Lemma missing_prerequisite_aborts_activation_witness :
  (existsb jarReportedPresent startup_without_jar = false /\
   exists s,
     run sample_constants sample_host activate startup_without_jar = Some s /\
     ~ In GetAvailablePort (trace s) /\
     (forall p, ~ In (Spawn p) (trace s)) /\
     serverProcess s = None /\
     count isNotification (trace s) = 1%nat /\
     In (ShowWarningMessage "LiquidJava API Jar Not Found in Workspace") (trace s) /\
     shows stopped s) /\
  (javaMissing host_without_java = true /\
   exists s,
     run sample_constants host_without_java activate startup_with_jar = Some s /\
     ~ In GetAvailablePort (trace s) /\
     (forall p, ~ In (Spawn p) (trace s)) /\
     serverProcess s = None /\
     count isNotification (trace s) = 1%nat /\
     In (ShowErrorMessage "LiquidJava - Java Runtime Not Found in JAVA_HOME or PATH")
       (trace s) /\
     shows stopped s).
Proof.
  split.
  - split; [reflexivity|].
    destruct (run sample_constants sample_host activate startup_without_jar)
      as [s|] eqn:Hrun; [|vm_compute in Hrun; discriminate Hrun].
    exists s. split; [reflexivity|].
    destruct (missing_prerequisite_aborts_activation sample_constants sample_host
                startup_without_jar s Hrun (or_introl eq_refl))
      as (Hport & Hspawn & Hproc & _ & _ & _ & Hdone).
    destruct (Hdone eq_refl) as (Hcount & _ & _ & Hshows).
    vm_compute in Hrun. injection Hrun as <-.
    repeat split; auto. vm_compute. tauto.
  - split; [reflexivity|].
    destruct (run sample_constants host_without_java activate startup_with_jar)
      as [s|] eqn:Hrun; [|vm_compute in Hrun; discriminate Hrun].
    exists s. split; [reflexivity|].
    destruct (missing_prerequisite_aborts_activation sample_constants host_without_java
                startup_with_jar s Hrun (or_intror eq_refl))
      as (Hport & Hspawn & Hproc & _ & _ & _ & Hdone).
    destruct (Hdone eq_refl) as (Hcount & _ & _ & Hshows).
    vm_compute in Hrun. injection Hrun as <-.
    repeat split; auto. vm_compute. tauto.
Defined.


(** * Further properties *)

(** ** Diagnostics routing and code lenses *)

Lemma isLensDiagnostic_isLiquidJavaError d :
  isLensDiagnostic d = isLiquidJavaError d.
Proof. unfold isLensDiagnostic, isLiquidJavaError. apply andb_comm. Qed.

Lemma find_hd_filter {A} (f : A -> bool) (l : list A) :
  find f l = hd_error (filter f l).
Proof.
  induction l as [|a l IH]; simpl; auto. destruct (f a); auto.
Qed.

(** X1.  The code lens provider and [handleDiagnostics] agree on a set of
    diagnostics: there is a code lens exactly when [handleDiagnostics] finds
    an error of the engine, the first lens sits on the start line of the
    diagnostic [handleDiagnostics] selects, and a set without a lens makes
    [handleDiagnostics] clear the error and report passed. *)
Theorem provideCodeLenses_agrees_with_handleDiagnostics :
  forall (K : Constants) (uri : Uri) (diagnostics : list Diagnostic.t) (s : State),
    (provideCodeLenses diagnostics = [] <->
     find isLiquidJavaError diagnostics = None) /\
    (provideCodeLenses diagnostics = [] ->
     exists s', handleDiagnostics K uri diagnostics s = Returned s' /\
                errorDiagnostic s' = None /\ shows passed s') /\
    (forall lens rest,
        provideCodeLenses diagnostics = lens :: rest ->
        exists d,
          find isLiquidJavaError diagnostics = Some d /\
          line (range_start (lens_range lens))
          = line (range_start (Diagnostic.range d)) /\
          forall s',
            handleDiagnostics K uri diagnostics s = Returned s' ->
            exists e,
              errorDiagnostic s' = Some e /\
              line (range_start (RefinementError.range e))
              = line (range_start (lens_range lens)) /\
              shows failed s').
Proof.
  intros K uri diagnostics s.
  unfold provideCodeLenses.
  rewrite (filter_ext _ _ isLensDiagnostic_isLiquidJavaError).
  assert (Hfind := find_hd_filter isLiquidJavaError diagnostics).
  destruct (filter isLiquidJavaError diagnostics) as [|d ds]; simpl in *.
  - split; [tauto|]. split; [|discriminate].
    intros _.
    destruct (handleDiagnostics_not_found K uri diagnostics s Hfind)
      as (s' & Hret & Herr & Hshows & _).
    exists s'. auto.
  - split; [split; intros Hno; [discriminate Hno|congruence]|].
    split; [discriminate|].
    intros lens rest [= <- <-]. exists d. split; [exact Hfind|].
    split; [reflexivity|].
    intros s' Hret. unfold handleDiagnostics in Hret. rewrite Hfind in Hret.
    destruct (Diagnostic.data d); [|discriminate].
    injection Hret as <-. eexists. repeat split.
Qed.

Lemma provideCodeLenses_agrees_with_handleDiagnostics_witness :
  exists lens rest d,
    provideCodeLenses sample_diagnostics = lens :: rest /\
    find isLiquidJavaError sample_diagnostics = Some d /\
    line (range_start (lens_range lens)) = 7 /\
    Diagnostic.message d = "refinement x > 0 violated".
Proof.
  eexists _, _.
  destruct (proj2 (proj2 (provideCodeLenses_agrees_with_handleDiagnostics
                            sample_constants sample_uri sample_diagnostics activate))
              _ _ eq_refl) as (d & Hfind & Hline & _).
  exists d. split; [reflexivity|]. split; [exact Hfind|].
  split; [reflexivity|].
  vm_compute in Hfind. now injection Hfind as <-.
Defined.

(** X2.  [provideCodeLenses] gives one lens for each diagnostic of severity
    [Error] and source ["liquidjava"], in their order and without merging
    lenses that fall on the same line, and none for any other diagnostic;
    each lens is an empty range at column 0 of the start line of its
    diagnostic and carries the command [liquidjava.showView]. *)
Theorem provideCodeLenses_one_lens_per_engine_error :
  forall (diagnostics : list Diagnostic.t),
    length (provideCodeLenses diagnostics)
    = length (filter isLiquidJavaError diagnostics) /\
    map (fun lens => line (range_start (lens_range lens)))
        (provideCodeLenses diagnostics)
    = map (fun d => line (range_start (Diagnostic.range d)))
          (filter isLiquidJavaError diagnostics) /\
    (forall lens,
        In lens (provideCodeLenses diagnostics) ->
        range_end (lens_range lens) = range_start (lens_range lens) /\
        character (range_start (lens_range lens)) = 0 /\
        lens_command lens = "liquidjava.showView" /\
        exists d,
          In d diagnostics /\
          Diagnostic.severity d = DiagnosticSeverity.Error /\
          Diagnostic.source d = Some "liquidjava" /\
          line (range_start (lens_range lens))
          = line (range_start (Diagnostic.range d))) /\
    (forall more,
        provideCodeLenses (diagnostics ++ more)
        = (provideCodeLenses diagnostics ++ provideCodeLenses more)%list).
Proof.
  intros diagnostics. unfold provideCodeLenses.
  rewrite (filter_ext _ _ isLensDiagnostic_isLiquidJavaError).
  split; [apply length_map|]. split; [now rewrite map_map|]. split.
  - intros lens Hin. apply in_map_iff in Hin as (d & <- & Hd).
    apply filter_In in Hd as [Hd Herr].
    apply isLiquidJavaError_spec in Herr as [Hsev Hsrc].
    repeat split. exists d. auto.
  - intros more.
    rewrite (filter_ext _ _ isLensDiagnostic_isLiquidJavaError).
    rewrite (filter_ext _ _ isLensDiagnostic_isLiquidJavaError more).
    now rewrite filter_app, map_app.
Qed.

Lemma provideCodeLenses_one_lens_per_engine_error_witness :
  exists lens,
    In lens (provideCodeLenses sample_diagnostics) /\
    length (provideCodeLenses sample_diagnostics) = 2%nat /\
    range_end (lens_range lens) = range_start (lens_range lens) /\
    character (range_start (lens_range lens)) = 0.
Proof.
  eexists. split; [left; reflexivity|]. split; [reflexivity|].
  destruct (proj1 (proj2 (proj2 (provideCodeLenses_one_lens_per_engine_error
                                   sample_diagnostics)))
              _ (or_introl eq_refl)) as (Hrange & Hchar & _).
  split; [exact Hrange|exact Hchar].
Defined.

(** X3.  A diagnostics set whose first error of the engine carries no
    structured payload makes [handleDiagnostics] throw while it builds the
    refinement error, also when a later error of the engine has a payload:
    nothing is sent to the webview, the status bar and [errorDiagnostic] keep
    what they had, and the middleware does not pass the diagnostics on to
    [next]. *)
Theorem handleDiagnostics_without_payload_throws :
  forall (K : Constants) (H : Host) (s : State) (uri : Uri)
         (before after : list Diagnostic.t) (d : Diagnostic.t),
    clientInstance s <> None ->
    (forall x, In x before -> isLiquidJavaError x = false) ->
    isLiquidJavaError d = true ->
    Diagnostic.data d = None ->
    exists s',
      step K H s (PublishDiagnostics uri (before ++ d :: after)) = Some s' /\
      trace s'
      = (trace s
         ++ [Uncaught "TypeError: Cannot read properties of undefined (reading 'errorKind')"])%list /\
      errorDiagnostic s' = errorDiagnostic s /\
      statusBarItem s' = statusBarItem s /\
      tasks s' = tasks s.
Proof.
  intros K H s uri before after d Hinst Hbefore Hd Hdata.
  assert (Hfind : find isLiquidJavaError (before ++ d :: after) = Some d).
  { apply find_first. exists before, after. auto. }
  unfold step. destruct (clientInstance s); [|congruence]. simpl.
  unfold middleware, handleDiagnostics. rewrite Hfind, Hdata.
  eexists. split; [reflexivity|]. repeat split.
Qed.

Lemma handleDiagnostics_without_payload_throws_witness :
  clientInstance sample_running <> None /\
  exists s',
    step sample_constants sample_host sample_running
      (PublishDiagnostics sample_uri
         ([sample_diagnostic "cannot find symbol" 3 DiagnosticSeverity.Error "java"]
          ++ sample_bare_diagnostic
             :: [sample_diagnostic "refinement y < 10 violated" 12
                   DiagnosticSeverity.Error "liquidjava"])) = Some s' /\
    errorDiagnostic s' = errorDiagnostic sample_running /\
    statusBarItem s' = statusBarItem sample_running.
Proof.
  assert (Hinst : clientInstance sample_running <> None) by (vm_compute; discriminate).
  split; [exact Hinst|].
  destruct (handleDiagnostics_without_payload_throws sample_constants sample_host
              sample_running sample_uri
              [sample_diagnostic "cannot find symbol" 3 DiagnosticSeverity.Error "java"]
              [sample_diagnostic "refinement y < 10 violated" 12
                 DiagnosticSeverity.Error "liquidjava"]
              sample_bare_diagnostic Hinst)
    as (s' & Hstep & _ & Herr & Hbar & _).
  - intros x [<-|[]]. reflexivity.
  - reflexivity.
  - reflexivity.
  - exists s'. auto.
Defined.

(** X4.  The outcome of [handleDiagnostics] depends on the routed set only
    through its first diagnostic of severity [Error] and source
    ["liquidjava"]: two sets with the same first such diagnostic, or both
    without one, give the same result, whatever else they hold and in
    whatever order. *)
Theorem handleDiagnostics_depends_on_first_engine_error :
  forall (K : Constants) (uri : Uri) (diagnostics diagnostics' : list Diagnostic.t)
         (s : State),
    hd_error (filter isLiquidJavaError diagnostics)
    = hd_error (filter isLiquidJavaError diagnostics') ->
    handleDiagnostics K uri diagnostics s = handleDiagnostics K uri diagnostics' s.
Proof.
  intros K uri diagnostics diagnostics' s Hsame.
  unfold handleDiagnostics. now rewrite !find_hd_filter, Hsame.
Qed.

Lemma handleDiagnostics_depends_on_first_engine_error_witness :
  handleDiagnostics sample_constants sample_uri sample_diagnostics sample_running
  = handleDiagnostics sample_constants sample_uri
      [sample_diagnostic "refinement x > 0 violated" 7
         DiagnosticSeverity.Error "liquidjava"]
      sample_running /\
  handleDiagnostics sample_constants sample_uri sample_clean_diagnostics sample_running
  = handleDiagnostics sample_constants sample_uri [] sample_running.
Proof.
  split.
  - exact (handleDiagnostics_depends_on_first_engine_error sample_constants sample_uri
             sample_diagnostics
             [sample_diagnostic "refinement x > 0 violated" 7
                DiagnosticSeverity.Error "liquidjava"]
             sample_running eq_refl).
  - exact (handleDiagnostics_depends_on_first_engine_error sample_constants sample_uri
             sample_clean_diagnostics [] sample_running eq_refl).
Defined.

Lemma handleDiagnostics_result K uri diagnostics s s' :
  handleDiagnostics K uri diagnostics s = Returned s' ->
  statusBarItem s'
  = {| text := icons (match errorDiagnostic s' with Some _ => failed | None => passed end)
               ++ " LiquidJava";
       color := "statusBar.foreground";
       tooltip := tooltip (statusBarItem s);
       command := command (statusBarItem s) |} /\
  errorDiagnostic s'
  = match find isLiquidJavaError diagnostics with
    | Some d =>
        match Diagnostic.data d with
        | Some errorKind => Some (refinementErrorOf K uri d errorKind)
        | None => None
        end
    | None => None
    end.
Proof.
  unfold handleDiagnostics.
  destruct s as [proc cl sk bar err [[]] inst lis closed save ts tr];
    (destruct (find isLiquidJavaError diagnostics) as [d|];
     [destruct (Diagnostic.data d)|]); intros [= <-]; split; reflexivity.
Qed.

(** X5.  There is one active error for the whole extension, not one per
    document: each routing that returns replaces what the previous one left.
    After two routings, [errorDiagnostic] and the status bar are what the
    second one alone would have left, whatever document the first one was
    for; the status bar then shows failed when [errorDiagnostic] is set and
    passed when it is not.  So a document without errors of the engine clears
    the error shown for another document. *)
Theorem handleDiagnostics_last_routing_wins :
  forall (K : Constants) (s s1 s2 : State) (uri1 uri2 : Uri)
         (diagnostics1 diagnostics2 : list Diagnostic.t),
    handleDiagnostics K uri1 diagnostics1 s = Returned s1 ->
    handleDiagnostics K uri2 diagnostics2 s1 = Returned s2 ->
    exists s2',
      handleDiagnostics K uri2 diagnostics2 s = Returned s2' /\
      errorDiagnostic s2 = errorDiagnostic s2' /\
      statusBarItem s2 = statusBarItem s2' /\
      (errorDiagnostic s2 <> None <-> shows failed s2) /\
      (errorDiagnostic s2 = None <-> shows passed s2).
Proof.
  intros K s s1 s2 uri1 uri2 diagnostics1 diagnostics2 H1 H2.
  destruct (handleDiagnostics_result K uri1 diagnostics1 s s1 H1) as (Hbar1 & _).
  destruct (handleDiagnostics_result K uri2 diagnostics2 s1 s2 H2) as (Hbar2 & Herr2).
  assert (Hret : exists s2', handleDiagnostics K uri2 diagnostics2 s = Returned s2').
  { unfold handleDiagnostics in *.
    destruct (find isLiquidJavaError diagnostics2) as [d|];
      [destruct (Diagnostic.data d)|]; try discriminate; eexists; reflexivity. }
  destruct Hret as (s2' & Hret). exists s2'. split; [exact Hret|].
  destruct (handleDiagnostics_result K uri2 diagnostics2 s s2' Hret) as (Hbar & Herr).
  assert (Heq : errorDiagnostic s2 = errorDiagnostic s2') by congruence.
  split; [exact Heq|].
  split.
  { rewrite Hbar2, Hbar, Heq, Hbar1. reflexivity. }
  unfold shows. rewrite Hbar2.
  destruct (errorDiagnostic s2); simpl; split; split;
    try congruence; try discriminate; auto.
Qed.

Lemma handleDiagnostics_last_routing_wins_witness :
  exists s1 s2,
    handleDiagnostics sample_constants sample_uri sample_diagnostics sample_running
      = Returned s1 /\
    errorDiagnostic s1 <> None /\
    handleDiagnostics sample_constants {| fsPath := "/ws/src/Other.java" |} []
      s1 = Returned s2 /\
    errorDiagnostic s2 = None /\
    shows passed s2.
Proof.
  eexists _, _. split; [reflexivity|]. split; [discriminate|].
  split; [reflexivity|].
  destruct (handleDiagnostics_last_routing_wins sample_constants sample_running
              _ _ sample_uri {| fsPath := "/ws/src/Other.java" |}
              sample_diagnostics [] eq_refl eq_refl)
    as (s2' & _ & _ & _ & _ & Hpassed).
  split; [reflexivity|]. apply Hpassed. reflexivity.
Defined.

(** ** The status bar and the commands *)

Lemma lastStatus_snoc l e :
  lastStatus (l ++ [e])
  = match e with
    | UpdateStatusBar st => Some st
    | _ => lastStatus l
    end.
Proof.
  induction l as [|a l IH]; simpl.
  - destruct e; reflexivity.
  - rewrite IH. destruct e; try reflexivity.
Qed.

Lemma statusBar_invariant_step K H s i s' :
  statusBar_invariant s ->
  step K H s i = Some s' ->
  statusBar_invariant s'.
Proof.
  intros (st & Hlast & Hbar) Hstep.
  destruct s as [proc cl sk bar err web inst lis closed save ts tr].
  simpl in *. subst bar.
  destruct i.
  all: step_cases Hstep.
  all: injection Hstep as <-.
  all: unfold statusBar_invariant; simpl.
  all: repeat (rewrite lastStatus_snoc; simpl).
  all: eexists; (split; [first [eassumption|reflexivity]|reflexivity]).
Qed.

Lemma statusBar_reachable K H s :
  reachable K H s -> statusBar_invariant s.
Proof.
  revert s. apply (reachable_invariant K H statusBar_invariant).
  - exists loading. split; reflexivity.
  - intros s i s'. apply statusBar_invariant_step.
Qed.

(** X6.  Whatever happens after [activate] was called, the status bar item
    is the one the most recent call of [updateStatusBar] made: its text is
    the icon of that state followed by " LiquidJava", so it shows exactly one
    of loading, stopped, passed and failed; its colour is [errorForeground]
    exactly when it shows stopped; and its tooltip and command are those
    [initStatusBar] gave it. *)
Theorem statusBar_shows_last_update :
  forall (K : Constants) (H : Host) (s : State),
    reachable K H s ->
    exists st,
      lastStatus (trace s) = Some st /\
      statusBarItem s = statusBarFor st /\
      shows st s /\
      (forall st', shows st' s -> st' = st) /\
      (color (statusBarItem s) = "errorForeground" <-> st = stopped) /\
      tooltip (statusBarItem s) = "LiquidJava Commands" /\
      command (statusBarItem s) = "liquidjava.showCommands".
Proof.
  intros K H s Hreach.
  destruct (statusBar_reachable K H s Hreach) as (st & Hlast & Hbar).
  exists st. split; [exact Hlast|]. split; [exact Hbar|].
  unfold shows. rewrite Hbar. simpl.
  split; [reflexivity|].
  split; [intros st'; destruct st, st'; simpl; intros Heq;
          first [reflexivity|discriminate Heq]|].
  split; [destruct st; simpl; split; intros Heq;
          first [reflexivity|discriminate Heq]|].
  split; reflexivity.
Qed.

Lemma statusBar_shows_last_update_witness :
  reachable sample_constants sample_host sample_killing /\
  lastStatus (trace sample_killing) = Some stopped /\
  statusBarItem sample_killing = statusBarFor stopped /\
  color (statusBarItem sample_killing) = "errorForeground".
Proof.
  assert (Hreach : reachable sample_constants sample_host sample_killing)
    by (exists (startup ++ [Dispose; Settle 0 resolved])%list; vm_compute; reflexivity).
  split; [exact Hreach|].
  destruct (statusBar_shows_last_update sample_constants sample_host
              sample_killing Hreach) as (st & Hlast & Hbar & _ & _ & Hcolor & _).
  assert (Hst : st = stopped).
  { vm_compute in Hlast. now injection Hlast as <-. }
  subst st. split; [vm_compute; reflexivity|]. split; [exact Hbar|].
  apply Hcolor. reflexivity.
Defined.



(** ** The webview *)






(** X9.  An error routed before the view of the webview is resolved is not
    lost: it is not posted then, but once the view is resolved and the
    webview reports ready, the error kept in [errorDiagnostic] is sent again
    and posted.  A set without an error of the engine routed in the same way
    is not announced again: on ready nothing is sent. *)
Theorem ready_webview_receives_current_error :
  forall (K : Constants) (H : Host) (s : State) (uri : Uri)
         (diagnostics : list Diagnostic.t) (m : InMessage),
    clientInstance s <> None ->
    view (webviewProvider s) = false ->
    msg_type m = "ready" ->
    (forall d errorKind,
        find isLiquidJavaError diagnostics = Some d ->
        Diagnostic.data d = Some errorKind ->
        exists s',
          run K H s [ PublishDiagnostics uri diagnostics;
                      ResolveWebviewView; WebviewMessage m ] = Some s' /\
          trace s'
          = (trace s
             ++ [ SendMessage (RefinementErrorMessage
                                 (Some (refinementErrorOf K uri d errorKind)));
                  UpdateStatusBar failed;
                  Next uri diagnostics;
                  SendMessage (RefinementErrorMessage
                                 (Some (refinementErrorOf K uri d errorKind)));
                  PostMessage (RefinementErrorMessage
                                 (Some (refinementErrorOf K uri d errorKind))) ])%list) /\
    (find isLiquidJavaError diagnostics = None ->
     exists s',
       run K H s [ PublishDiagnostics uri diagnostics;
                   ResolveWebviewView; WebviewMessage m ] = Some s' /\
       trace s'
       = (trace s
          ++ [ SendMessage (RefinementErrorMessage None);
               UpdateStatusBar passed;
               Next uri diagnostics ])%list).
Proof.
  intros K H s uri diagnostics m Hinst Hview Hready.
  destruct s as [proc cl sk bar err [v] inst lis closed save ts tr].
  simpl in *. subst v. destruct inst as [c|]; [clear Hinst|congruence].
  split.
  - intros d errorKind Hfind Hdata.
    unfold run, step, middleware, handleDiagnostics. simpl.
    rewrite Hfind, Hdata. simpl.
    unfold onDidReceiveMessage. simpl. rewrite Hready. simpl.
    eexists. split; [reflexivity|]. simpl.
    rewrite <- !app_assoc. reflexivity.
  - intros Hfind.
    unfold run, step, middleware, handleDiagnostics. simpl.
    rewrite Hfind. simpl.
    unfold onDidReceiveMessage. simpl. rewrite Hready. simpl.
    eexists. split; [reflexivity|]. simpl.
    rewrite <- !app_assoc. reflexivity.
Qed.

Lemma ready_webview_receives_current_error_witness :
  clientInstance sample_running <> None /\
  view (webviewProvider sample_running) = false /\
  exists s' e,
    run sample_constants sample_host sample_running
      [ PublishDiagnostics sample_uri sample_diagnostics;
        ResolveWebviewView; WebviewMessage ready_message ] = Some s' /\
    In (PostMessage (RefinementErrorMessage (Some e))) (trace s') /\
    RefinementError.message e = "refinement x > 0 violated".
Proof.
  assert (Hinst : clientInstance sample_running <> None) by (vm_compute; discriminate).
  split; [exact Hinst|]. split; [reflexivity|].
  destruct (proj1 (ready_webview_receives_current_error sample_constants sample_host
                     sample_running sample_uri sample_diagnostics ready_message
                     Hinst eq_refl eq_refl)
              (sample_diagnostic "refinement x > 0 violated" 7
                 DiagnosticSeverity.Error "liquidjava")
              "refinement-error" eq_refl eq_refl) as (s' & Hrun & Htrace).
  exists s'. eexists. split; [exact Hrun|]. split.
  - rewrite Htrace. apply in_or_app. right. do 4 right. left. reflexivity.
  - reflexivity.
Defined.

(** ** Resources over a whole run *)

Lemma precedes_snoc a b l e :
  precedes a b l -> (e = b -> In a l) -> precedes a b (l ++ [e]).
Proof.
  intros Hl He l1 l2 Heq.
  destruct (exists_last (l := b :: l2)) as (l2' & x & Hlast); [discriminate|].
  rewrite Hlast, app_assoc in Heq.
  apply app_inj_tail in Heq as [Hl1 Hx]. subst l x.
  destruct l2' as [|b' l2'']; simpl in Hlast.
  - injection Hlast as Hb _. rewrite app_nil_r in He. apply He. now symmetry.
  - injection Hlast as <- _. exact (Hl l1 l2'' eq_refl).
Qed.

Lemma precedes_absent a b l : ~ In b l -> precedes a b l.
Proof.
  intros Habsent l1 l2 ->. destruct Habsent. apply in_elt.
Qed.

Ltac solve_in :=
  first [ solve [eauto]
        | apply in_or_app; first [ right; left; reflexivity | left; solve_in ] ].

Ltac solve_precedes :=
  repeat (apply precedes_snoc;
          [| let Heq := fresh "Heq" in
             intros Heq;
             first [ discriminate Heq
                   | injection Heq as <-; solve_in
                   | solve_in ] ]);
  auto.

Lemma resources_invariant_step K H s i s' :
  resources_invariant s ->
  step K H s i = Some s' ->
  resources_invariant s'.
Proof.
  intros (Hproc & Hsk & Hcl & Hkill & Hdestroy & Hstop) Hstep.
  destruct s as [proc cl sk bar err web inst lis closed save ts tr].
  simpl in *.
  destruct i.
  all: step_cases Hstep.
  all: injection Hstep as <-.
  all: unfold resources_invariant; simpl.
  all: repeat split.
  all: try solve [intros; solve_precedes].
  all: intros; try discriminate;
         try match goal with Heq : Some _ = Some _ |- _ => injection Heq as <- end;
         solve_in.
Qed.

Lemma resources_reachable K H s : reachable K H s -> resources_invariant s.
Proof.
  revert s. apply (reachable_invariant K H resources_invariant).
  - unfold resources_invariant. simpl.
    repeat split; try discriminate; intros; apply precedes_absent; simpl;
      intuition discriminate.
  - intros s i s'. apply resources_invariant_step.
Qed.

(** X10.  Whatever happens after [activate] was called, the extension tears
    down only what it created, and after it created it: every kill signal
    goes to a process that was spawned before, every [socket.destroy()] to a
    socket that a connection had delivered before, and every [client.stop()]
    comes after [client.start()]; and what [serverProcess], [socket] and
    [client] hold was spawned, delivered and started. *)
Theorem teardown_only_of_created_resources :
  forall (K : Constants) (H : Host) (s : State),
    reachable K H s ->
    (forall p, precedes (Spawn p) (Kill p) (trace s)) /\
    (forall sk, precedes (ServerOptionsResolve sk) (SocketDestroy sk) (trace s)) /\
    precedes ClientStart ClientStop (trace s) /\
    (forall p, serverProcess s = Some p -> In (Spawn p) (trace s)) /\
    (forall sk, socket s = Some sk -> In (ServerOptionsResolve sk) (trace s)) /\
    (forall c, client s = Some c -> In ClientStart (trace s)).
Proof.
  intros K H s Hreach.
  destruct (resources_reachable K H s Hreach)
    as (Hproc & Hsk & Hcl & Hkill & Hdestroy & Hstop).
  repeat split; assumption.
Qed.

Lemma teardown_only_of_created_resources_witness :
  reachable sample_constants sample_host sample_stopped /\
  In (Kill sample_process) (trace sample_stopped) /\
  precedes (Spawn sample_process) (Kill sample_process) (trace sample_stopped).
Proof.
  assert (Hreach : reachable sample_constants sample_host sample_stopped)
    by (exists (startup ++ [Dispose; Settle 0 resolved; Settle 0 resolved])%list;
        vm_compute; reflexivity).
  split; [exact Hreach|]. split; [vm_compute; tauto|].
  exact (proj1 (teardown_only_of_created_resources sample_constants sample_host
                  sample_stopped Hreach) sample_process).
Defined.

Lemma socket_invariant_step K H s i s' :
  socket_invariant s ->
  step K H s i = Some s' ->
  socket_invariant s'.
Proof.
  intros Hinv Hstep.
  destruct s as [proc cl sk bar err web inst lis closed save ts tr].
  unfold socket_invariant in *. simpl in *.
  destruct i.
  all: step_cases Hstep.
  all: injection Hstep as <-.
  all: simpl; rewrite ?count_app.
  all: unfold count in *; simpl in *; lia.
Qed.

(** X11.  Whatever happens after [activate] was called, stops that overlap
    included, [socket.destroy()] is called at most once for each connection
    that was established: the sockets destroyed, plus the one [socket] still
    holds, are never more than the connections delivered to [serverOptions].
    [stopExtension] destroys the socket and clears [socket] without an
    [await] in between. *)
Theorem socket_destroyed_at_most_once :
  forall (K : Constants) (H : Host) (s : State),
    reachable K H s ->
    (count isSocketDestroy (trace s) + (if defined (socket s) then 1 else 0)
     <= count isServerOptionsResolve (trace s))%nat.
Proof.
  intros K H s. revert s.
  apply (reachable_invariant K H socket_invariant).
  - unfold socket_invariant, count. simpl. lia.
  - intros s i s'. apply socket_invariant_step.
Qed.

Lemma socket_destroyed_at_most_once_witness :
  reachable sample_constants sample_host sample_stopped_twice /\
  count isStoppingLog (trace sample_stopped_twice) = 2%nat /\
  count isKill (trace sample_stopped_twice) = 2%nat /\
  count isSocketDestroy (trace sample_stopped_twice) = 1%nat.
Proof.
  assert (Hreach : reachable sample_constants sample_host sample_stopped_twice)
    by (exists (startup ++ overlapping_stops)%list; vm_compute; reflexivity).
  split; [exact Hreach|].
  split; [vm_compute; reflexivity|]. split; [vm_compute; reflexivity|].
  pose proof (socket_destroyed_at_most_once sample_constants sample_host
                sample_stopped_twice Hreach) as Hle.
  assert (Hone : count isServerOptionsResolve (trace sample_stopped_twice) = 1%nat)
    by (vm_compute; reflexivity).
  assert (Hsome : (1 <= count isSocketDestroy (trace sample_stopped_twice))%nat)
    by (vm_compute; lia).
  lia.
Defined.

Lemma pending_remove_nth f ts n t :
  nth_error ts n = Some t ->
  pending f ts = (pending f (remove_nth n ts) + (if f t then 1 else 0))%nat.
Proof.
  unfold pending. revert n. induction ts as [|a ts IH]; intros [|n] Hn;
    simpl in Hn; try discriminate.
  - injection Hn as ->. simpl. destruct (f t); simpl; lia.
  - simpl. specialize (IH n Hn). destruct (f a); simpl; lia.
Qed.

Lemma pending_app f ts ts' :
  pending f (ts ++ ts') = (pending f ts + pending f ts')%nat.
Proof. unfold pending. now rewrite filter_app, length_app. Qed.

Lemma activation_invariant_step K H s i s' :
  activation_invariant s ->
  step K H s i = Some s' ->
  activation_invariant s'.
Proof.
  intros (Hport & Hspawn & Hstart) Hstep.
  destruct s as [proc cl sk bar err web inst lis closed save ts tr].
  simpl in *.
  destruct i.
  all: step_cases Hstep.
  all: injection Hstep as <-.
  all: repeat match goal with
         | Hn : nth_error _ _ = Some _ |- _ =>
             rewrite (pending_remove_nth isBeforePort _ _ _ Hn) in *;
             rewrite (pending_remove_nth isAwaitingPort _ _ _ Hn) in *;
             rewrite (pending_remove_nth isAwaitingServer _ _ _ Hn) in *;
             clear Hn
         end.
  all: unfold activation_invariant; simpl; rewrite ?pending_app, ?count_app.
  all: unfold count, pending in *; simpl in *.
  all: repeat split; lia.
Qed.

Lemma activation_reachable K H s : reachable K H s -> activation_invariant s.
Proof.
  revert s. apply (reachable_invariant K H activation_invariant).
  - unfold activation_invariant, pending, count. simpl. lia.
  - intros s i s'. apply activation_invariant_step.
Qed.

Lemma step_creates K H s i s' :
  step K H s i = Some s' ->
  (client s = None -> client s' <> None ->
   count isClientStart (trace s') = S (count isClientStart (trace s))) /\
  (serverProcess s = None -> serverProcess s' <> None ->
   count isSpawn (trace s') = S (count isSpawn (trace s))).
Proof.
  intros Hstep.
  destruct s as [proc cl sk bar err web inst lis closed save ts tr].
  simpl in *.
  destruct i.
  all: step_cases Hstep.
  all: injection Hstep as <-.
  all: simpl; rewrite ?count_app; unfold count; simpl.
  all: split; intros Hnone Hsome; try congruence; try lia.
Qed.

Lemma count_in f l e : In e l -> f e = true -> (1 <= count f l)%nat.
Proof.
  unfold count. induction l as [|a l IH]; simpl; [tauto|].
  intros [->|Hin] He.
  - rewrite He. simpl. lia.
  - specialize (IH Hin He). destruct (f a); simpl; lia.
Qed.

(** X12.  There is no restart.  Whatever happens after [activate] was
    called, [getAvailablePort] is called at most once, at most one process is
    spawned and [client.start()] is called at most once; so once the client
    was started and [client] has been cleared, [client] stays cleared, and
    once a process was spawned and [serverProcess] has been cleared,
    [serverProcess] stays cleared. *)
Theorem no_restart :
  forall (K : Constants) (H : Host) (s : State),
    reachable K H s ->
    (count isGetAvailablePort (trace s) <= 1)%nat /\
    (count isSpawn (trace s) <= 1)%nat /\
    (count isClientStart (trace s) <= 1)%nat /\
    (forall i s',
        step K H s i = Some s' ->
        (In ClientStart (trace s) -> client s = None -> client s' = None) /\
        (forall p, In (Spawn p) (trace s) ->
                   serverProcess s = None -> serverProcess s' = None)).
Proof.
  intros K H s Hreach.
  destruct (activation_reachable K H s Hreach) as (Hport & Hspawn & Hstart).
  split; [lia|]. split; [lia|]. split; [lia|].
  intros i s' Hstep.
  destruct (activation_invariant_step K H s i s'
              (conj Hport (conj Hspawn Hstart)) Hstep)
    as (_ & Hspawn' & Hstart').
  destruct (step_creates K H s i s' Hstep) as (Hclient & Hproc).
  split.
  - intros Hin Hnone.
    pose proof (count_in isClientStart _ _ Hin eq_refl) as Hone.
    destruct (client s') as [c|]; [|reflexivity].
    assert (Hne : Some c <> None) by discriminate.
    specialize (Hclient Hnone Hne). lia.
  - intros p Hin Hnone.
    pose proof (count_in isSpawn _ _ Hin eq_refl) as Hone.
    destruct (serverProcess s') as [p'|]; [|reflexivity].
    assert (Hne : Some p' <> None) by discriminate.
    specialize (Hproc Hnone Hne). lia.
Qed.

Lemma no_restart_witness :
  reachable sample_constants sample_host sample_stopped /\
  In ClientStart (trace sample_stopped) /\
  client sample_stopped = None /\
  forall i s',
    step sample_constants sample_host sample_stopped i = Some s' ->
    client s' = None.
Proof.
  assert (Hreach : reachable sample_constants sample_host sample_stopped)
    by (exists (startup ++ [Dispose; Settle 0 resolved; Settle 0 resolved])%list;
        vm_compute; reflexivity).
  assert (Hstarted : In ClientStart (trace sample_stopped)) by (vm_compute; tauto).
  split; [exact Hreach|]. split; [exact Hstarted|]. split; [reflexivity|].
  intros i s' Hstep.
  exact (proj1 (proj2 (proj2 (proj2 (no_restart sample_constants sample_host
                                       sample_stopped Hreach))) i s' Hstep)
           Hstarted eq_refl).
Defined.

(** ** How the engine is invoked *)

Lemma engine_on_mono K H tr l port :
  engine_on K H tr port -> engine_on K H (tr ++ l) port.
Proof.
  intros (p & Hin & Hp). exists p. split; [apply in_or_app; now left|exact Hp].
Qed.

Lemma contract_task_mono K H tr l t :
  contract_task K H tr t -> contract_task K H (tr ++ l) t.
Proof. destruct t; simpl; auto using engine_on_mono. Qed.

Ltac break_in Hin :=
  repeat (apply in_app_or in Hin; destruct Hin as [Hin|Hin]);
  try (destruct Hin as [Hin|[]];
       [first [discriminate Hin | injection Hin as <- | idtac]]).

Ltac mono :=
  repeat first [ assumption | apply engine_on_mono | apply contract_task_mono ].

Lemma contract_invariant_step K H s i s' :
  DEBUG_MODE K = false ->
  contract_invariant K H s ->
  step K H s i = Some s' ->
  contract_invariant K H s'.
Proof.
  intros Hdebug (Hspawn & Hconn & Hinst & Htasks) Hstep.
  destruct s as [proc cl sk bar err web inst lis closed save ts tr].
  simpl in *.
  destruct i.
  all: step_cases Hstep.
  all: try congruence.
  all: injection Hstep as <-.
  all: repeat match goal with
         | Hn : nth_error _ _ = Some _ |- _ =>
             apply (Forall_nth_error _ _ _ _ Htasks) in Hn; simpl in Hn
         end.
  all: unfold contract_invariant; simpl.
  all: split;
         [intros p0 Hin; break_in Hin; eauto;
          eexists; unfold spawned_as; simpl; repeat split; eauto|].
  all: split;
         [intros port0 Hin; break_in Hin; mono; eauto; try exact (Hinst _ eq_refl)|].
  all: split;
         [intros c0 Hc0; try (injection Hc0 as <-); simpl; mono; eauto;
          try exact (Hinst _ eq_refl)|].
  all: repeat first
         [ apply Forall_app; split
         | apply Forall_remove_nth
         | apply Forall_cons
         | apply Forall_nil
         | exact I ].
  all: try (eapply Forall_impl; [|exact Htasks]; intros; mono).
  all: simpl;
       try first [ solve [mono; eauto]
                 | eexists; split; [solve_in|];
                   unfold spawned_as; simpl; repeat split; eauto ].
  all: mono; exact (Hinst _ eq_refl).
Qed.

Lemma contract_reachable K H s :
  DEBUG_MODE K = false -> reachable K H s -> contract_invariant K H s.
Proof.
  intros Hdebug. revert s. apply (reachable_invariant K H (contract_invariant K H)).
  - unfold contract_invariant. simpl. repeat split.
    + intros p [Hin|[Hin|[Hin|[]]]]; discriminate Hin.
    + intros port [Hin|[Hin|[Hin|[]]]]; discriminate Hin.
    + discriminate.
    + repeat constructor.
  - intros s i s' Hinv Hstep. exact (contract_invariant_step K H s i s' Hdebug Hinv Hstep).
Qed.

(** X13.  Outside debug mode, whatever happens after [activate] was called:
    every process the extension spawns is the Java executable that
    [findJavaExecutable] found, run in the first workspace folder with the
    arguments [-jar], the jar [SERVER_JAR_FILENAME] in the [server] directory
    of the extension, and a port; the process [serverProcess] holds is such a
    process; and every connection the client attempts goes to the port that
    a spawned process was given as its argument. *)
Theorem engine_invocation_contract :
  forall (K : Constants) (H : Host) (s : State),
    DEBUG_MODE K = false ->
    reachable K H s ->
    (forall p,
        In (Spawn p) (trace s) \/ serverProcess s = Some p ->
        exists port, spawned_as K H p port) /\
    (forall port,
        In (ConnectToPort port) (trace s) ->
        exists p, In (Spawn p) (trace s) /\ spawned_as K H p port) /\
    (forall c,
        clientInstance s = Some c ->
        exists p, In (Spawn p) (trace s) /\ spawned_as K H p (serverPort c)).
Proof.
  intros K H s Hdebug Hreach.
  destruct (contract_reachable K H s Hdebug Hreach) as (Hspawn & Hconn & Hinst & _).
  destruct (resources_reachable K H s Hreach) as (Hproc & _).
  split; [|split; assumption].
  intros p [Hin|Hp]; [exact (Hspawn p Hin)|exact (Hspawn p (Hproc p Hp))].
Qed.

Lemma engine_invocation_contract_witness :
  DEBUG_MODE sample_constants = false /\
  reachable sample_constants sample_host sample_running /\
  In (ConnectToPort 54321) (trace sample_running) /\
  exists p,
    In (Spawn p) (trace sample_running) /\
    spawned_as sample_constants sample_host p 54321.
Proof.
  assert (Hreach : reachable sample_constants sample_host sample_running)
    by (exists startup; vm_compute; reflexivity).
  assert (Hconn : In (ConnectToPort 54321) (trace sample_running))
    by (vm_compute; tauto).
  split; [reflexivity|]. split; [exact Hreach|]. split; [exact Hconn|].
  exact (proj1 (proj2 (engine_invocation_contract sample_constants sample_host
                         sample_running eq_refl Hreach)) 54321 Hconn).
Defined.

(** ** Activation without a workspace folder *)

Lemma unspawned_invariant_step K H s i s' :
  DEBUG_MODE K = false ->
  noWorkspaceFolder H = true ->
  unspawned_invariant s ->
  step K H s i = Some s' ->
  unspawned_invariant s' /\
  (In noWorkspaceError (trace s) -> In noWorkspaceError (trace s')) /\
  (portAnswered i = true -> In noWorkspaceError (trace s')).
Proof.
  intros Hdebug Hnone
         (Hproc & Hcl & Hsk & Hinst & Hlis & Hsave & Htasks & Htrace & Hone & Hshows)
         Hstep.
  destruct s as [proc cl sk bar err web inst lis closed save ts tr].
  simpl in *. subst proc cl sk inst lis save.
  unfold noWorkspaceFolder in Hnone.
  destruct i.
  all: step_cases Hstep.
  all: try congruence.
  all: injection Hstep as <-.
  all: repeat match goal with
         | Hn : nth_error _ _ = Some _ |- _ =>
             pose proof (Forall_nth_error _ _ _ _ Htasks Hn) as Hearly;
             simpl in Hearly; try contradiction;
             destruct ts as [|t0 [|t1 ts']]; simpl in Hone; try lia;
             match type of Hn with
             | nth_error _ ?n = _ =>
                 destruct n as [|[|n']]; simpl in Hn; try discriminate Hn
             end;
             clear Hn
         end.
  all: unfold unspawned_invariant, shows, noWorkspaceError in *;
       simpl in *; rewrite ?count_app.
  all: unfold count in *; simpl in *.
  all: repeat split; try solve_Forall; try discriminate; try lia; auto.
  all: try (intros; reflexivity).
  all: try (intros; apply Hshows; lia).
  all: try (intros; solve_in).
Qed.

Lemma unspawned_invariant_run K H inputs :
  DEBUG_MODE K = false ->
  noWorkspaceFolder H = true ->
  forall s s',
    unspawned_invariant s ->
    run K H s inputs = Some s' ->
    unspawned_invariant s' /\
    (In noWorkspaceError (trace s) \/ existsb portAnswered inputs = true ->
     In noWorkspaceError (trace s')).
Proof.
  intros Hdebug Hnone.
  induction inputs as [|i inputs IH]; intros s s' Hinv Hrun; cbn [run existsb] in *.
  - injection Hrun as <-. split; [exact Hinv|]. intros [Hin|Hf]; [exact Hin|discriminate].
  - destruct (step K H s i) as [s1|] eqn:Hstep; [|discriminate].
    destruct (unspawned_invariant_step K H s i s1 Hdebug Hnone Hinv Hstep)
      as (Hinv1 & Hkeep & Hnow).
    destruct (IH s1 s' Hinv1 Hrun) as (Hinv' & Hlater).
    split; [exact Hinv'|].
    intros [Hin|Hany]; [auto|].
    apply orb_true_iff in Hany as [Hi|Hrest]; auto.
Qed.

Lemma unspawned_invariant_activate : unspawned_invariant activate.
Proof.
  unfold unspawned_invariant, shows, count. simpl.
  repeat split; try discriminate; try (repeat constructor).
Qed.

(** X14.  Outside debug mode, with no workspace folder open, nothing is ever
    created: whatever happens after [activate] was called, no process is
    spawned, no client is started and the three references stay undefined.
    Once [getAvailablePort()] has answered, [runLanguageServer] has thrown
    while reading the first workspace folder and the activation is over
    without a word to the user: the exception is not caught, no message was
    shown, nothing is left suspended and the status bar still shows
    loading. *)
Theorem activation_without_workspace_folder :
  forall (K : Constants) (H : Host) (inputs : list Input) (s : State),
    DEBUG_MODE K = false ->
    noWorkspaceFolder H = true ->
    run K H activate inputs = Some s ->
    (forall p, ~ In (Spawn p) (trace s)) /\
    ~ In ClientStart (trace s) /\
    serverProcess s = None /\ client s = None /\ socket s = None /\
    (existsb portAnswered inputs = true ->
       (exists reason, In (Uncaught reason) (trace s)) /\
       count isNotification (trace s) = 0%nat /\
       tasks s = [] /\
       shows loading s).
Proof.
  intros K H inputs s Hdebug Hnone Hrun.
  destruct (unspawned_invariant_run K H inputs Hdebug Hnone activate s
              unspawned_invariant_activate Hrun)
    as ((Hproc & Hcl & Hsk & _ & _ & _ & _ & Htrace & Hone & Hshows) & Herror).
  rewrite Forall_forall in Htrace.
  split; [intros p Hin; exact (Htrace _ Hin)|].
  split; [intros Hin; exact (Htrace _ Hin)|].
  repeat (split; [assumption|]).
  intros Hany.
  assert (Hin : In noWorkspaceError (trace s)) by auto.
  pose proof (count_in isUncaught _ _ Hin eq_refl) as Hcount.
  assert (Hnotif : count isNotification (trace s) = 0%nat) by lia.
  split; [eexists; exact Hin|]. split; [exact Hnotif|].
  split; [destruct (tasks s); [reflexivity|simpl in Hone; lia]|].
  exact (Hshows Hnotif).
Qed.

Lemma activation_without_workspace_folder_witness :
  DEBUG_MODE sample_constants = false /\
  noWorkspaceFolder host_without_workspace = true /\
  exists s,
    run sample_constants host_without_workspace activate startup_spawned = Some s /\
    (exists reason, In (Uncaught reason) (trace s)) /\
    (forall p, ~ In (Spawn p) (trace s)) /\
    count isNotification (trace s) = 0%nat /\
    shows loading s.
Proof.
  split; [reflexivity|]. split; [reflexivity|].
  destruct (run sample_constants host_without_workspace activate startup_spawned)
    as [s|] eqn:Hrun; [|vm_compute in Hrun; discriminate Hrun].
  exists s. split; [reflexivity|].
  destruct (activation_without_workspace_folder sample_constants
              host_without_workspace startup_spawned s eq_refl eq_refl Hrun)
    as (Hspawn & _ & _ & _ & _ & Hdone).
  destruct (Hdone eq_refl) as (Herror & Hnotif & _ & Hshows).
  repeat split; assumption.
Defined.



(** ** Activation up to "Extension is ready" *)

Lemma run_cons K H s i rest :
  run K H s (i :: rest)
  = match step K H s i with
    | Some s' => run K H s' rest
    | None => None
    end.
Proof. reflexivity. Qed.

Ltac norm_goal :=
  cbv [startup_on resolved activate unloaded initStatusBar initWebview
       nth_error remove_nth app
       step resume deactivate onDidChangeState middleware handleDiagnostics
       onDidSaveTextDocument onDidReceiveMessage onStdout onStderr onProcessError
       onProcessClose serverOptions runClient_started runClient
       activate_prerequisites runLanguageServer_spawn runLanguageServer
       stopExtension stopExtension_closeSocket stopExtension_clearProcess
       resume_caller killProcess sendMessage resolveWebviewView updateStatusBar
       nothingToStop defined negb andb
       logInfo logError emit suspend
       set_serverProcess set_client set_socket set_statusBarItem set_errorDiagnostic
       set_webviewProvider set_clientInstance set_processListening set_processClosed
       set_saveListener set_tasks set_trace
       serverProcess client socket statusBarItem errorDiagnostic webviewProvider
       clientInstance processListening processClosed saveListener tasks trace
       view serverPort destroyError
       SERVER_JAR_FILENAME DEBUG_MODE DEBUG_PORT EXAMPLE_DERIVATION_NODE
       EXAMPLE_EXPECTED EXAMPLE_TRANSLATION_TABLE
       findJavaExecutable extensionPath path_resolve workspaceFolders].

Ltac run_step := rewrite run_cons; norm_goal.

(** X15. With debug mode off, a Java executable found and a workspace folder
    open, the activation whose awaited calls all succeed (overlay applied, jar
    present, [getAvailablePort()] answering [port], the client's connection
    delivering [sk], [client.start()] resolving) runs to completion: the engine
    process is [java -jar <extensionPath>/server/<SERVER_JAR_FILENAME> <port>]
    in the first workspace folder, the client is bound to [port], [socket] is
    [sk], no call is left suspended, the save listener is registered, no
    warning or error is shown, and the status bar still shows "loading" as set
    by [initStatusBar].  The first diagnostics published without an engine
    error then turn it to "passed" and leave [errorDiagnostic] empty. *)
Theorem activation_reaches_ready :
  forall (K : Constants) (H : Host) (java root : string) (others : list string)
         (port : Z) (sk : Socket),
    DEBUG_MODE K = false ->
    findJavaExecutable H "java" = Some java ->
    java <> "" ->
    workspaceFolders H = Some (root :: others) ->
    exists s,
      run K H activate (startup_on port sk) = Some s /\
      serverProcess s
      = Some {| spawnfile := java;
                spawnargs := ["-jar";
                              path_resolve H [extensionPath H; "server";
                                              SERVER_JAR_FILENAME K];
                              string_of_Z port];
                spawncwd := root |} /\
      client s = Some {| serverPort := port |} /\
      socket s = Some sk /\
      tasks s = [] /\
      saveListener s = true /\
      errorDiagnostic s = None /\
      count isNotification (trace s) = 0%nat /\
      lastStatus (trace s) = Some loading /\
      shows loading s /\
      forall uri diagnostics,
        find isLiquidJavaError diagnostics = None ->
        exists s',
          step K H s (PublishDiagnostics uri diagnostics) = Some s' /\
          shows passed s' /\ errorDiagnostic s' = None.
Proof.
  intros K H java root others port sk Hdebug Hjava Hnonempty Hws.
  destruct java as [|a java]; [congruence|].
  destruct K as [jar debug debugPort node expected table].
  destruct H as [findJava ext resolve folders].
  simpl in Hdebug, Hjava, Hws. subst debug folders.
  unfold startup_on.
  run_step. run_step. rewrite Hjava. norm_goal. do 5 run_step. cbn [run].
  eexists. (split; [reflexivity|]).
  (repeat (split; [reflexivity|])).
  intros uri diagnostics Hnone. norm_goal. rewrite Hnone.
  eexists. (split; [reflexivity|]). (split; reflexivity).
Qed.

Lemma activation_reaches_ready_witness :
  DEBUG_MODE sample_constants = false /\
  findJavaExecutable sample_host "java" = Some "/usr/bin/java" /\
  workspaceFolders sample_host = Some ["/ws"] /\
  exists s,
    run sample_constants sample_host activate (startup_on 54321 sample_socket)
    = Some s /\
    serverProcess s = Some sample_process /\
    client s = Some {| serverPort := 54321 |} /\
    socket s = Some sample_socket /\
    tasks s = [] /\
    shows loading s.
Proof.
  split; [reflexivity|]. split; [reflexivity|]. split; [reflexivity|].
  assert (Hjava : "/usr/bin/java" <> "") by discriminate.
  destruct (activation_reaches_ready sample_constants sample_host
              "/usr/bin/java" "/ws" [] 54321 sample_socket
              eq_refl eq_refl Hjava eq_refl)
    as (s & Hrun & Hprocess & Hclient & Hsocket & Htasks & _ & _ & _ & _ & Hshows & _).
  exists s. split; [exact Hrun|]. split; [exact Hprocess|].
  split; [exact Hclient|]. split; [exact Hsocket|]. split; [exact Htasks|].
  exact Hshows.
Defined.
